(** * Budget-buddy: ledger reconciliation and period aggregation

    A shallow embedding of the parts of
    [backend/app/services/sheets_service.py] and
    [backend/app/services/analysis_service.py] that decide the
    duplicate-receipt check, the period aggregations, the budget and
    goal computations and the writes to the worksheets, and of the
    ledger step of [confirm_receipt] in
    [backend/app/api/routes/receipts.py], together with the properties
    established about them.

    Conventions of the embedding.
    - A Python [str] is a [string] whose characters are code points in
      the Latin-1 range (0..255); [lower], [strip] and the whitespace
      class follow Python on that range.
    - A Python [float] holding a finite value is an exact rational [Q];
      binary64 rounding is not modelled.  The one non-finite value the
      code manufactures itself, the NaN that [pandas.to_numeric(...,
      errors='coerce')] puts in place of a cell that is not a number,
      is modelled as [None] in an [option Q].
    - A spreadsheet cell read through gspread is a [cell]: a number or
      a string.
    - A Python [dict] is an insertion-ordered association list.
    - Code that may raise returns a [result]; a [try]/[except] is a
      match on it. *)

From Stdlib Require Import List Bool Arith ZArith QArith Qround Lia Lqa.
From Stdlib Require Import Ascii String DecimalString Permutation Sorted.
Import ListNotations.

Close Scope Q_scope.
Open Scope string_scope.

(* ===================================================================== *)
(** ** Python strings *)
(* ===================================================================== *)

Module PyStr.

Definition chars (s : string) : list ascii := list_ascii_of_string s.
Definition str (l : list ascii) : string := string_of_list_ascii l.

Definition code (c : ascii) : N := N_of_ascii c.

(** [str.isspace] on Latin-1: TAB..CR, FS..US, space, NEL, NBSP. *)
Definition is_space (c : ascii) : bool :=
  let n := code c in
  ((9 <=? n) && (n <=? 13) || (28 <=? n) && (n <=? 32)
   || (n =? 133) || (n =? 160))%N.

(** [str.lower] on one Latin-1 character: A-Z, and the accented
    capitals 0xC0..0xDE except the multiplication sign 0xD7. *)
Definition lower_char (c : ascii) : ascii :=
  let n := code c in
  if ((65 <=? n) && (n <=? 90)
      || (192 <=? n) && (n <=? 222) && negb (n =? 215))%N
  then ascii_of_N (n + 32) else c.

Definition upper_char (c : ascii) : ascii :=
  let n := code c in
  if ((97 <=? n) && (n <=? 122)
      || (224 <=? n) && (n <=? 254) && negb (n =? 247))%N
  then ascii_of_N (n - 32) else c.

Fixpoint dropwhile (p : ascii -> bool) (l : list ascii) : list ascii :=
  match l with
  | [] => []
  | c :: t => if p c then dropwhile p t else l
  end.

Definition lstrip_l (l : list ascii) := dropwhile is_space l.
Definition rstrip_l (l : list ascii) := rev (dropwhile is_space (rev l)).
Definition strip_l (l : list ascii) := rstrip_l (lstrip_l l).

Definition lower (s : string) : string := str (map lower_char (chars s)).
(** [str.upper] on Latin-1.  The three characters whose upper case
    leaves Latin-1 (sharp s, micro sign, y with diaeresis) are left
    as they are; the code only compares the result with "TOTAL",
    which none of them can produce. *)
Definition upper (s : string) : string := str (map upper_char (chars s)).
Definition strip (s : string) : string := str (strip_l (chars s)).

Fixpoint list_eqb (a b : list ascii) : bool :=
  match a, b with
  | [], [] => true
  | x :: a', y :: b' => Ascii.eqb x y && list_eqb a' b'
  | _, _ => false
  end.

(** [s.endswith(suf)] *)
Definition endswith (s suf : string) : bool :=
  let l := chars s in
  let t := chars suf in
  (List.length t <=? List.length l)%nat
  && list_eqb (skipn (List.length l - List.length t) l) t.

(** [s[:-n]] for [n > 0] *)
Definition drop_last (n : nat) (s : string) : string :=
  let l := chars s in str (firstn (List.length l - n) l).

Definition is_empty (s : string) : bool :=
  match s with EmptyString => true | _ => false end.

End PyStr.

(* ===================================================================== *)
(** ** CategoryNormalizer: [SheetsService._normalize_category] *)
(* ===================================================================== *)

Definition _normalize_category (category : string) : string :=
  let normalized := PyStr.strip (PyStr.lower category) in
  if PyStr.endswith normalized "ies" then
    PyStr.drop_last 3 normalized ++ "y"
  else if PyStr.endswith normalized "s"
          && negb (PyStr.endswith normalized "ss") then
    PyStr.drop_last 1 normalized
  else normalized.

(* ===================================================================== *)
(** ** Numbers, cells and exceptions *)
(* ===================================================================== *)

(** The exceptions the handlers of the modelled code name *)
Inductive exn : Type := ValueError | TypeError.

Inductive result (A : Type) : Type :=
  | Ok (a : A)
  | Raise (e : exn).
Arguments Ok {A} a.
Arguments Raise {A} e.

Definition bind {A B : Type} (m : result A) (k : A -> result B) : result B :=
  match m with
  | Ok a => k a
  | Raise e => Raise e
  end.

Notation "'do' x <- m ; k" := (bind m (fun x => k))
  (at level 10, x name, m at level 100, k at level 200).

(** A cell as [worksheet.get_all_records()] returns it: gspread turns a
    numeric cell into an [int] or a [float] and leaves anything else a
    [str] (a blank cell is the empty string). *)
Inductive cell : Type :=
  | CNum (q : Q)
  | CStr (s : string).

Module PyNum.

Local Open Scope Q_scope.

Definition is_digit (c : ascii) : bool :=
  let n := PyStr.code c in ((48 <=? n) && (n <=? 57))%N.

Definition digit_val (c : ascii) : Z := (Z.of_N (PyStr.code c) - 48)%Z.

(** Reads a run of decimal digits: the accumulated value, the number
    of digits read and the rest of the input. *)
Fixpoint take_digits (l : list ascii) (acc : Z) (n : nat)
  : Z * nat * list ascii :=
  match l with
  | c :: t =>
      if is_digit c then take_digits t (acc * 10 + digit_val c)%Z (S n)
      else (acc, n, l)
  | [] => (acc, n, [])
  end.

Definition take_sign (l : list ascii) : Z * list ascii :=
  match l with
  | "-"%char :: t => ((-1)%Z, t)
  | "+"%char :: t => (1%Z, t)
  | _ => (1%Z, l)
  end.

(** [m * 10^e] as a rational *)
Definition scale10 (m e : Z) : Q :=
  if (0 <=? e)%Z then inject_Z (m * 10 ^ e)%Z
  else Qmake m (Z.to_pos (10 ^ (- e))%Z).

(** [float(s)] for a string: surrounding whitespace, an optional
    sign, a decimal mantissa with digits on at least one side of the
    point, an optional exponent.  [None] is Python's [ValueError].
    The spellings of infinity and NaN and the underscore digit
    separator, which Python also accepts, are not part of the
    embedding's numbers and are rejected here. *)
Definition float_of_chars (l : list ascii) : option Q :=
  let l := PyStr.strip_l l in
  let (sg, l) := take_sign l in
  let '(ip, ni, l) := take_digits l 0%Z 0%nat in
  let '(mant, nf, l) :=
    match l with
    | "."%char :: t => take_digits t ip 0%nat
    | _ => (ip, 0%nat, l)
    end in
  if (ni + nf =? 0)%nat then None
  else
    match l with
    | [] => Some (scale10 (sg * mant) (- Z.of_nat nf)%Z)
    | c :: t =>
        if (Ascii.eqb c "e" || Ascii.eqb c "E")%bool then
          let (esg, t) := take_sign t in
          let '(ev, ne, t) := take_digits t 0%Z 0%nat in
          match ne, t with
          | S _, [] =>
              Some (scale10 (sg * mant) (esg * ev - Z.of_nat nf)%Z)
          | _, _ => None
          end
        else None
    end.

Definition float_of_string (s : string) : option Q :=
  float_of_chars (PyStr.chars s).

(** [float(x)] on a cell *)
Definition py_float (c : cell) : result Q :=
  match c with
  | CNum q => Ok q
  | CStr s =>
      match float_of_string s with
      | Some q => Ok q
      | None => Raise ValueError
      end
  end.

(** [pandas.to_numeric(column, errors='coerce')] on one cell: [None]
    is NaN. *)
Definition to_numeric (c : cell) : option Q :=
  match py_float c with
  | Ok q => Some q
  | Raise _ => None
  end.

(** [isinstance(x, str) and not x.strip()] *)
Definition is_blank_str (c : cell) : bool :=
  match c with
  | CStr s => PyStr.is_empty (PyStr.strip s)
  | CNum _ => false
  end.

(** Round half to even, to the nearest integer. *)
Definition round_half_even (q : Q) : Z :=
  let f := Qfloor q in
  let r := q - inject_Z f in
  match Qcompare r (1 # 2) with
  | Lt => f
  | Gt => (f + 1)%Z
  | Eq => if Z.even f then f else (f + 1)%Z
  end.

(** [round(q, n)] *)
Definition round_to (n : nat) (q : Q) : Q :=
  let p := (10 ^ Z.of_nat n)%Z in
  Qmake (round_half_even (q * inject_Z p)) (Z.to_pos p).

Definition Qabs' (q : Q) : Q := if Qle_bool 0 q then q else - q.

Definition Qltb (a b : Q) : bool := negb (Qle_bool b a).

Fixpoint Qsum (l : list Q) : Q :=
  match l with
  | [] => 0
  | x :: t => x + Qsum t
  end.

Definition nat_to_string (n : nat) : string :=
  DecimalString.NilZero.string_of_uint (Nat.to_uint n).

(** Left-pads a natural number with zeros to [w] digits. *)
Definition pad0 (w : nat) (n : nat) : string :=
  let s := nat_to_string n in
  PyStr.str (repeat "0"%char (w - String.length s)) ++ s.

(** [f"{x:.2f}"]; [None] is NaN. *)
Definition format_2f (x : option Q) : string :=
  match x with
  | None => "nan"
  | Some q =>
      let c := round_half_even (Qabs' q * 100) in
      (if Qltb q 0 then "-" else "")
      ++ nat_to_string (Z.to_nat (c / 100)%Z) ++ "."
      ++ pad0 2 (Z.to_nat (c mod 100)%Z)
  end.

End PyNum.

(* ===================================================================== *)
(** ** [datetime]: calendar, parsing, formatting *)
(* ===================================================================== *)

Module PyDate.

Local Open Scope Z_scope.

(** A naive [datetime]: the proleptic Gregorian ordinal of its date
    (day 1 is 0001-01-01, as [date.toordinal()]) and the microseconds
    elapsed since midnight. *)
Record datetime : Type := mkdt { ordinal : Z; tod_us : Z }.

Definition day_us : Z := 86400 * 1000000.

Definition is_leap (y : Z) : bool :=
  (y mod 4 =? 0) && (negb (y mod 100 =? 0) || (y mod 400 =? 0)).

Definition days_in_month (y m : Z) : Z :=
  if m =? 2 then (if is_leap y then 29 else 28)
  else if (m =? 4) || (m =? 6) || (m =? 9) || (m =? 11) then 30
  else 31.

(** [_DAYS_IN_MONTH] *)
Definition days_in_month_common (m : Z) : Z :=
  if m =? 2 then 28
  else if (m =? 4) || (m =? 6) || (m =? 9) || (m =? 11) then 30
  else 31.

Definition days_before_year (y : Z) : Z :=
  let y1 := y - 1 in y1 * 365 + y1 / 4 - y1 / 100 + y1 / 400.

(** [_DAYS_BEFORE_MONTH], for a common year *)
Definition days_before_month_common (m : Z) : Z :=
  match m with
  | 1 => 0 | 2 => 31 | 3 => 59 | 4 => 90 | 5 => 120 | 6 => 151
  | 7 => 181 | 8 => 212 | 9 => 243 | 10 => 273 | 11 => 304 | 12 => 334
  | _ => 0
  end.

Definition days_before_month (y m : Z) : Z :=
  days_before_month_common m
  + (if (2 <? m) && is_leap y then 1 else 0).

Definition ymd2ord (y m d : Z) : Z :=
  days_before_year y + days_before_month y m + d.

(** [datetime._ord2ymd] *)
Definition ord2ymd (n0 : Z) : Z * Z * Z :=
  let n := n0 - 1 in
  let n400 := n / 146097 in
  let n := n mod 146097 in
  let n100 := n / 36524 in
  let n := n mod 36524 in
  let n4 := n / 1461 in
  let n := n mod 1461 in
  let n1 := n / 365 in
  let n := n mod 365 in
  let year := n400 * 400 + 1 + n100 * 100 + n4 * 4 + n1 in
  if (n1 =? 4) || (n100 =? 4) then (year - 1, 12, 31)
  else
    let leapyear := (n1 =? 3) && (negb (n4 =? 24) || (n100 =? 3)) in
    let month := Z.shiftr (n + 50) 5 in
    let preceding :=
      days_before_month_common month
      + (if (2 <? month) && leapyear then 1 else 0) in
    if n <? preceding then
      let month' := month - 1 in
      let preceding' :=
        preceding
        - (days_in_month_common month'
           + (if (month' =? 2) && leapyear then 1 else 0)) in
      (year, month', n - preceding' + 1)
    else (year, month, n - preceding + 1).

Definition year (d : datetime) : Z := fst (fst (ord2ymd (ordinal d))).
Definition month (d : datetime) : Z := snd (fst (ord2ymd (ordinal d))).
Definition day (d : datetime) : Z := snd (ord2ymd (ordinal d)).
Definition microsecond (d : datetime) : Z := tod_us d mod 1000000.

(** [a < b], [a <= b] on datetimes *)
Definition ltb (a b : datetime) : bool :=
  (ordinal a <? ordinal b)
  || ((ordinal a =? ordinal b) && (tod_us a <? tod_us b)).
Definition leb (a b : datetime) : bool := negb (ltb b a).

(** [d + timedelta(days=days, seconds=secs)] *)
Definition add (d : datetime) (days secs : Z) : datetime :=
  let t := tod_us d + secs * 1000000 in
  mkdt (ordinal d + days + t / day_us) (t mod day_us).

(** [d - timedelta(days=n)] *)
Definition minus_days (d : datetime) (n : Z) : datetime := add d (- n) 0.

(** [(a - b).days] *)
Definition diff_days (a b : datetime) : Z :=
  ((ordinal a - ordinal b) * day_us + (tod_us a - tod_us b)) / day_us.

(** [d.weekday()], Monday is 0 *)
Definition weekday (d : datetime) : Z := (ordinal d + 6) mod 7.

(** [d.replace(day=1)] *)
Definition replace_day1 (d : datetime) : datetime :=
  mkdt (ymd2ord (year d) (month d) 1) (tod_us d).

(** [d.replace(hour=0, minute=0, second=0, microsecond=0)] *)
Definition midnight (d : datetime) : datetime := mkdt (ordinal d) 0.

(** [d.replace(hour=23, minute=59, second=59)] *)
Definition end_of_day (d : datetime) : datetime :=
  mkdt (ordinal d) (86399 * 1000000 + microsecond d).

(** [d.replace(month=m, day=dd)] and [d.replace(year=y, month=m, day=dd)] *)
Definition replace_ymd (d : datetime) (y m dd : Z) : datetime :=
  mkdt (ymd2ord y m dd) (tod_us d).

(** Parsing: the fields of [_strptime]'s regular expressions. *)
Fixpoint split_on (sep : ascii) (l : list ascii) : list (list ascii) :=
  match l with
  | [] => [[]]
  | c :: t =>
      if Ascii.eqb c sep then [] :: split_on sep t
      else
        match split_on sep t with
        | f :: fs => (c :: f) :: fs
        | [] => [[c]]
        end
  end.

Definition dv (c : ascii) : Z := PyNum.digit_val c.
Definition in_range (c : ascii) (lo hi : Z) : bool :=
  PyNum.is_digit c && (lo <=? dv c) && (dv c <=? hi).

(** [%d]: [3[0-1]|[1-2]\d|0[1-9]|[1-9]| [1-9]] *)
Definition field_d (f : list ascii) : option Z :=
  match f with
  | [a] => if in_range a 1 9 then Some (dv a) else None
  | [a; b] =>
      if (in_range a 3 3 && in_range b 0 1)
         || (in_range a 1 2 && in_range b 0 9)
         || (in_range a 0 0 && in_range b 1 9)
      then Some (dv a * 10 + dv b)
      else if Ascii.eqb a " " && in_range b 1 9 then Some (dv b)
      else None
  | _ => None
  end.

(** [%m]: [1[0-2]|0[1-9]|[1-9]] *)
Definition field_m (f : list ascii) : option Z :=
  match f with
  | [a] => if in_range a 1 9 then Some (dv a) else None
  | [a; b] =>
      if (in_range a 1 1 && in_range b 0 2)
         || (in_range a 0 0 && in_range b 1 9)
      then Some (dv a * 10 + dv b)
      else None
  | _ => None
  end.

(** [%Y]: [\d\d\d\d] *)
Definition field_Y (f : list ascii) : option Z :=
  match f with
  | [a; b; c; d] =>
      if PyNum.is_digit a && PyNum.is_digit b
         && PyNum.is_digit c && PyNum.is_digit d
      then Some (dv a * 1000 + dv b * 100 + dv c * 10 + dv d)
      else None
  | _ => None
  end.

(** The date a parse found, if it is one: year at least 1 and the day
    within its month. *)
Definition make_date (y m d : option Z) : option datetime :=
  match y, m, d with
  | Some y, Some m, Some d =>
      if (1 <=? y) && (d <=? days_in_month y m)
      then Some (mkdt (ymd2ord y m d) 0)
      else None
  | _, _, _ => None
  end.

(** [datetime.strptime(s, "%d-%m-%Y")]; [None] is [ValueError]. *)
Definition strptime_dmY (s : string) : option datetime :=
  match split_on "-" (PyStr.chars s) with
  | [d; m; y] => make_date (field_Y y) (field_m m) (field_d d)
  | _ => None
  end.

(** [datetime.strptime(s, "%Y-%m-%d")] *)
Definition strptime_Ymd (s : string) : option datetime :=
  match split_on "-" (PyStr.chars s) with
  | [y; m; d] => make_date (field_Y y) (field_m m) (field_d d)
  | _ => None
  end.

Definition zs (w : nat) (z : Z) : string := PyNum.pad0 w (Z.to_nat z).

(** [d.strftime("%Y-%m")], the year written with four digits (as
    [strptime] reads it back; the C library pads years below 1000 on
    some platforms only). *)
Definition strftime_Ym (d : datetime) : string :=
  (zs 4 (year d) ++ "-" ++ zs 2 (month d))%string.

(** [%U]: week of the year, weeks starting on Sunday, the days before
    the first Sunday in week 0. *)
Definition week_U (d : datetime) : Z :=
  let yday := ordinal d - ymd2ord (year d) 1 1 in
  let wday := (ordinal d) mod 7 in
  (yday + 7 - wday) / 7.

(** [d.strftime("%Y-W%U")] *)
Definition strftime_YWU (d : datetime) : string :=
  (zs 4 (year d) ++ "-W" ++ zs 2 (week_U d))%string.

Definition month_abbr (m : Z) : string :=
  match m with
  | 1 => "Jan" | 2 => "Feb" | 3 => "Mar" | 4 => "Apr" | 5 => "May"
  | 6 => "Jun" | 7 => "Jul" | 8 => "Aug" | 9 => "Sep" | 10 => "Oct"
  | 11 => "Nov" | _ => "Dec"
  end.

(** [d.strftime("%b %d")] and [d.strftime("%b %d, %Y")] *)
Definition strftime_bd (d : datetime) : string :=
  (month_abbr (month d) ++ " " ++ zs 2 (day d))%string.
Definition strftime_bdY (d : datetime) : string :=
  (strftime_bd d ++ ", " ++ zs 4 (year d))%string.

End PyDate.

(* ===================================================================== *)
(** ** Insertion-ordered dictionaries *)
(* ===================================================================== *)

Module Dict.

Section Ops.
Context {K V : Type} (eqb : K -> K -> bool).

(** [d.get(k)] *)
Fixpoint get (d : list (K * V)) (k : K) : option V :=
  match d with
  | [] => None
  | (k', v) :: t => if eqb k' k then Some v else get t k
  end.

(** [d[k] = v]: an existing key keeps its place, a new one goes
    last. *)
Fixpoint set (d : list (K * V)) (k : K) (v : V) : list (K * V) :=
  match d with
  | [] => [(k, v)]
  | (k', v') :: t =>
      if eqb k' k then (k', v) :: t else (k', v') :: set t k v
  end.

Definition mem (d : list (K * V)) (k : K) : bool :=
  match get d k with Some _ => true | None => false end.

(** [d[k]] on a [defaultdict] whose factory gives [dflt] *)
Definition get_default (dflt : V) (d : list (K * V)) (k : K) : V :=
  match get d k with Some v => v | None => dflt end.
End Ops.

Definition keys {K V : Type} (d : list (K * V)) : list K := map fst d.

(** [s.add(x)] on a set kept as a list without repetition *)
Definition set_add (s : list string) (x : string) : list string :=
  if existsb (String.eqb x) s then s else s ++ [x].


End Dict.

(** [sorted(d.items())] for string keys: insertion sort on the key, by
    code point. *)
Fixpoint insert_by_key {V : Type} (x : string * V) (l : list (string * V))
  : list (string * V) :=
  match l with
  | [] => [x]
  | y :: t =>
      if String.leb (fst x) (fst y) then x :: l
      else y :: insert_by_key x t
  end.

Definition sorted_items {V : Type} (d : list (string * V))
  : list (string * V) :=
  fold_right insert_by_key [] d.

(* ===================================================================== *)
(** ** [fuzzywuzzy.fuzz] *)
(* ===================================================================== *)

Module Fuzz.

(** fuzzywuzzy takes its [SequenceMatcher] from python-Levenshtein when
    that is installed and from [difflib] otherwise. *)
Inductive matcher : Type := Difflib | Levenshtein.

(** One row of the longest-common-subsequence table: the row of the
    prefix of [a] extended by [x], from the row [prev] of the prefix
    itself.  Rows run over the non-empty prefixes of [b]; [diag] and
    [left] are the entries up-left and left of the one computed. *)
Fixpoint lcs_row (x : ascii) (b : list ascii) (prev : list nat)
         (diag left : nat) : list nat :=
  match b, prev with
  | y :: b', up :: prev' =>
      let v := if Ascii.eqb x y then S diag else Nat.max up left in
      v :: lcs_row x b' prev' up v
  | _, _ => []
  end.

(** Length of a longest common subsequence: python-Levenshtein's ratio
    is [(len1 + len2 - d) / (len1 + len2)] for the edit distance [d]
    in which a substitution costs 2, that is [2 * lcs / (len1 + len2)]. *)
Definition lcs (a b : list ascii) : nat :=
  last (fold_left (fun row x => lcs_row x b row 0 0) a
                  (repeat 0 (List.length b))) 0.

Fixpoint common_prefix (a b : list ascii) : nat :=
  match a, b with
  | x :: a', y :: b' => if Ascii.eqb x y then S (common_prefix a' b') else 0
  | _, _ => 0
  end.

(** The longest block of [a] found at the start of a suffix of [b]:
    (start in [b], length), the earliest start among the longest. *)
Fixpoint best_in_b (a b : list ascii) (j : nat) : nat * nat :=
  match b with
  | [] => (j, 0)
  | _ :: b' =>
      let k := common_prefix a b in
      let (j', k') := best_in_b a b' (S j) in
      if (k' <=? k)%nat then (j, k) else (j', k')
  end.

(** [SequenceMatcher.find_longest_match]: (start in [a], start in
    [b], length), earliest in [a] and then earliest in [b] among the
    longest.  difflib's "popular element" heuristic applies to
    sequences of 200 elements or more and is not modelled. *)
Fixpoint find_longest_match (a b : list ascii) (i : nat)
  : nat * nat * nat :=
  match a with
  | [] => (i, 0, 0)
  | _ :: a' =>
      let (j, k) := best_in_b a b 0 in
      let '(i', j', k') := find_longest_match a' b (S i) in
      if (k' <=? k)%nat then (i, j, k) else (i', j', k')
  end.

(** Total length of [SequenceMatcher.get_matching_blocks()] *)
Fixpoint matching_blocks (fuel : nat) (a b : list ascii) : nat :=
  match fuel with
  | 0 => 0
  | S fuel' =>
      let '(i, j, k) := find_longest_match a b 0 in
      if (k =? 0)%nat then 0
      else k + matching_blocks fuel' (firstn i a) (firstn j b)
           + matching_blocks fuel' (skipn (i + k) a) (skipn (j + k) b)
  end.

Definition matches (m : matcher) (a b : list ascii) : nat :=
  match m with
  | Levenshtein => lcs a b
  | Difflib => matching_blocks (S (List.length a)) a b
  end.

(** [utils.intr]: [int(round(x))] *)
Definition intr (q : Q) : Z := PyNum.round_half_even q.

(** [fuzz.ratio]: 100 for equal strings, 0 when either is empty,
    otherwise [intr(100 * 2 * M / T)]. *)
Definition ratio (m : matcher) (s1 s2 : string) : Z :=
  if String.eqb s1 s2 then 100%Z
  else
    let a := PyStr.chars s1 in
    let b := PyStr.chars s2 in
    match a, b with
    | [], _ | _, [] => 0%Z
    | _, _ =>
        intr (100 * (inject_Z (2 * Z.of_nat (matches m a b))
                     / inject_Z (Z.of_nat (List.length a + List.length b))))%Q
    end.

Definition is_word (c : ascii) : bool :=
  let n := PyStr.code c in
  ((48 <=? n) && (n <=? 57) || (65 <=? n) && (n <=? 90)
   || (97 <=? n) && (n <=? 122) || (n =? 95))%N.

(** [utils.full_process(s, force_ascii=True)]: characters above 127
    removed, every non-word character replaced by a space, lower
    case, stripped. *)
Definition full_process (s : string) : string :=
  let l := filter (fun c => (PyStr.code c <? 128)%N) (PyStr.chars s) in
  let l := map (fun c => if is_word c then c else " "%char) l in
  PyStr.strip (PyStr.lower (PyStr.str l)).

(** [s.split()] *)
Fixpoint split_ws (l : list ascii) (cur : list ascii) : list string :=
  match l with
  | [] => match cur with [] => [] | _ => [PyStr.str (rev cur)] end
  | c :: t =>
      if PyStr.is_space c then
        match cur with
        | [] => split_ws t []
        | _ => PyStr.str (rev cur) :: split_ws t []
        end
      else split_ws t (c :: cur)
  end.

Definition split (s : string) : list string := split_ws (PyStr.chars s) [].

Fixpoint insert_str (x : string) (l : list string) : list string :=
  match l with
  | [] => [x]
  | y :: t =>
      if String.eqb x y then l
      else if String.ltb x y then x :: l
      else y :: insert_str x t
  end.

(** [sorted(set(l))] *)
Definition sorted_set (l : list string) : list string :=
  fold_right insert_str [] l.

Definition inb (x : string) (l : list string) : bool :=
  existsb (String.eqb x) l.

(** [" ".join(l)] *)
Fixpoint join (sep : string) (l : list string) : string :=
  match l with
  | [] => ""
  | [x] => x
  | x :: t => x ++ sep ++ join sep t
  end.

Definition Zmax3 (a b c : Z) : Z := Z.max a (Z.max b c).

(** [fuzz.token_set_ratio(s1, s2)] *)
Definition token_set_ratio (m : matcher) (s1 s2 : string) : Z :=
  let p1 := full_process s1 in
  let p2 := full_process s2 in
  if PyStr.is_empty p1 then 0%Z
  else if PyStr.is_empty p2 then 0%Z
  else
    let tokens1 := split p1 in
    let tokens2 := split p2 in
    let intersection := filter (fun t => inb t tokens2) tokens1 in
    let diff1to2 := filter (fun t => negb (inb t tokens2)) tokens1 in
    let diff2to1 := filter (fun t => negb (inb t tokens1)) tokens2 in
    let sorted_sect := join " " (sorted_set intersection) in
    let sorted_1to2 := join " " (sorted_set diff1to2) in
    let sorted_2to1 := join " " (sorted_set diff2to1) in
    let combined_1to2 := PyStr.strip (sorted_sect ++ " " ++ sorted_1to2) in
    let combined_2to1 := PyStr.strip (sorted_sect ++ " " ++ sorted_2to1) in
    let sorted_sect := PyStr.strip sorted_sect in
    Zmax3 (ratio m sorted_sect combined_1to2)
          (ratio m sorted_sect combined_2to1)
          (ratio m combined_1to2 combined_2to1).

End Fuzz.

(* ===================================================================== *)
(** ** Data model *)
(* ===================================================================== *)

(** One row of the "Receipts" worksheet, keyed by the sheet's headers.
    The columns the code reads as text are strings; a number in one of
    them behaves in every path modelled here as the text that spells
    it.  The columns read through [float] or [pandas.to_numeric] keep
    the cell. *)
Record LedgerRow : Type := mkRow {
  row_Date : string;
  row_Merchant : string;
  row_Address : cell;
  row_Item : string;
  row_Category : string;
  row_Qty : cell;
  row_Unit_Price : cell;
  row_Total_Price : cell;
  row_Tax : cell;
  row_Grand_Total : cell;
  row_Payment : cell
}.

(** [app.models.receipt] *)
Record MerchantDetails : Type := mkMerchant {
  name : string;
  address : string
}.

Record LineItem : Type := mkItem {
  item_name : string;
  unit_price : Q;
  quantity : Q;
  price : Q;
  category : string
}.

Record TotalAmounts : Type := mkTotals {
  total : Q;
  tax : option Q;
  payment_method : string
}.

Record Receipt : Type := mkReceipt {
  merchant_details : MerchantDetails;
  purchase_date : string;
  line_items : list LineItem;
  total_amounts : TotalAmounts
}.

(* ===================================================================== *)
(** ** DuplicateDetector: [SheetsService.find_duplicate_receipts] *)
(* ===================================================================== *)

(** A row of the pandas frame: the sheet row with the merchant
    lower-cased and stripped, the two numeric columns coerced ([None]
    is NaN) and the merchant score. *)
Record DfRow : Type := mkDf {
  df_row : LedgerRow;
  df_Merchant : string;
  df_Grand_Total : option Q;
  df_Total_Price : option Q;
  df_merchant_score : Z
}.

Record GroupItem : Type := mkGroupItem {
  gi_Item : string;
  gi_Category : string;
  gi_Qty : cell;
  gi_Unit_Price : cell;
  gi_Total_Price : option Q
}.

(** A reconstructed receipt.  [Address], [Tax] and [Payment] are kept
    as the first row's cells; the code stores their [str()]. *)
Record ReceiptGroup : Type := mkGroup {
  g_Date : string;
  g_Merchant : string;
  g_Address : cell;
  g_Grand_Total : option Q;
  g_Tax : cell;
  g_Payment : cell;
  g_items : list GroupItem;
  g_merchant_score : Z
}.

Record NormItem : Type := mkNorm {
  n_name : string;
  n_price : option Q;
  n_original_name : string
}.

Record DuplicateSummary : Type := mkDup {
  d_Date : string;
  d_Merchant : string;
  d_Address : cell;
  d_Grand_Total : option Q;
  d_Tax : cell;
  d_Payment : cell;
  d_Item : string;
  d_Category : string;
  d_match_type : string;
  d_match_percentage : Q;
  d_merchant_score : Z;
  d_items_detail : list GroupItem
}.

(** The nested [parse_date] of [find_duplicate_receipts] *)
Definition parse_date (date_str : string) : option PyDate.datetime :=
  match PyDate.strptime_dmY date_str with
  | Some d => Some d
  | None => PyDate.strptime_Ymd date_str
  end.

(** Replaces every maximal run of characters in the class [p] by one
    space: [re.sub(r'[p]+', ' ', s)]. *)
Fixpoint collapse (p : ascii -> bool) (l : list ascii) (in_run : bool)
  : list ascii :=
  match l with
  | [] => []
  | c :: t =>
      if p c then
        if in_run then collapse p t true else " "%char :: collapse p t true
      else c :: collapse p t false
  end.

Definition is_nrt (c : ascii) : bool :=
  let n := PyStr.code c in ((n =? 10) || (n =? 13) || (n =? 9))%N.

(** The nested [normalize_item_name] *)
Definition normalize_item_name (name : string) : string :=
  let normalized :=
    collapse is_nrt (PyStr.chars (PyStr.strip (PyStr.lower name))) false in
  PyStr.str (collapse PyStr.is_space normalized false).

Definition make_df (m : Fuzz.matcher) (merchant_name : string)
           (r : LedgerRow) : DfRow :=
  let merchant := PyStr.strip (PyStr.lower (row_Merchant r)) in
  mkDf r merchant
       (PyNum.to_numeric (row_Grand_Total r))
       (PyNum.to_numeric (row_Total_Price r))
       (Fuzz.token_set_ratio m merchant merchant_name).

(** [x == 0] for a float that may be NaN *)
Definition is_zero (x : option Q) : bool :=
  match x with
  | Some q => Qeq_bool q 0
  | None => false
  end.

(** The key of a row's receipt:
    [f"{date_str}|{merchant}|{grand_total:.2f}"] *)
Definition group_key (d : DfRow) : string :=
  row_Date (df_row d) ++ "|" ++ df_Merchant d ++ "|"
  ++ PyNum.format_2f (df_Grand_Total d).

Definition new_group (d : DfRow) : ReceiptGroup :=
  let r := df_row d in
  mkGroup (row_Date r) (df_Merchant d) (row_Address r) (df_Grand_Total d)
          (row_Tax r) (row_Payment r) [] (df_merchant_score d).

Definition add_item (g : ReceiptGroup) (it : GroupItem) : ReceiptGroup :=
  mkGroup (g_Date g) (g_Merchant g) (g_Address g) (g_Grand_Total g)
          (g_Tax g) (g_Payment g) (g_items g ++ [it]) (g_merchant_score g).

(** One iteration of the grouping loop.  [float(x or 0)] leaves a
    number and a NaN as they are. *)
Definition group_step (groups : list (string * ReceiptGroup)) (d : DfRow)
  : list (string * ReceiptGroup) :=
  let r := df_row d in
  let grand_total := df_Grand_Total d in
  if is_zero grand_total then groups
  else
    let key := group_key d in
    let g := match Dict.get String.eqb groups key with
             | Some g => g
             | None => new_group d
             end in
    let item_name := PyStr.strip (row_Item r) in
    let g :=
      if negb (PyStr.is_empty item_name)
         && negb (String.eqb (PyStr.upper item_name) "TOTAL")
      then add_item g (mkGroupItem item_name (row_Category r) (row_Qty r)
                                   (row_Unit_Price r) (df_Total_Price d))
      else g in
    Dict.set String.eqb groups key g.

(** ReceiptReconstructor *)
Definition receipt_groups (rows : list DfRow) : list (string * ReceiptGroup) :=
  fold_left group_step rows [].

Definition expected_items (receipt : Receipt) : list NormItem :=
  map (fun item => mkNorm (normalize_item_name (item_name item))
                          (Some (PyNum.round_to 2 (price item)))
                          (item_name item))
      (line_items receipt).

Definition matched_items (g : ReceiptGroup) : list NormItem :=
  map (fun item => mkNorm (normalize_item_name (gi_Item item))
                          (option_map (PyNum.round_to 2) (gi_Total_Price item))
                          (gi_Item item))
      (g_items g).

(** [amount_diff > 0.01]; a comparison with NaN is false. *)
Definition amount_differs (total_amount : Q) (existing_total : option Q)
  : bool :=
  match existing_total with
  | Some t => PyNum.Qltb (1 # 100) (PyNum.Qabs' (total_amount - t))
  | None => false
  end.

(** The candidate's items that have a stored item whose name is at
    least 85 percent similar *)
Definition matched_count (m : Fuzz.matcher) (expected matched : list NormItem)
  : nat :=
  List.length
    (filter (fun exp_item =>
               existsb (fun match_item =>
                          (85 <=? Fuzz.ratio m (n_name exp_item)
                                               (n_name match_item))%Z)
                       matched)
            expected).

Definition total_items (expected matched : list NormItem) : nat :=
  Nat.max (List.length expected) (List.length matched).

Definition match_percentage (m : Fuzz.matcher)
           (expected matched : list NormItem) : Q :=
  match total_items expected matched with
  | O => 0
  | S _ as n =>
      (inject_Z (Z.of_nat (matched_count m expected matched))
       / inject_Z (Z.of_nat n) * 100)%Q
  end.

Definition is_duplicate (m : Fuzz.matcher)
           (expected matched : list NormItem) : bool :=
  Qle_bool 70 (match_percentage m expected matched).

Fixpoint dedup (l : list string) : list string :=
  match l with
  | [] => []
  | x :: t => if Fuzz.inb x t then dedup t else x :: dedup t
  end.

(** The summary of a group reported as a duplicate.  The categories
    are joined from a Python [set], whose order is not determined; here
    they come in order of last occurrence. *)
Definition duplicate_summary (m : Fuzz.matcher) (expected : list NormItem)
           (g : ReceiptGroup) : DuplicateSummary :=
  mkDup (g_Date g) (g_Merchant g) (g_Address g) (g_Grand_Total g)
        (g_Tax g) (g_Payment g)
        (PyNum.nat_to_string (List.length (g_items g)) ++ " items")
        (Fuzz.join ", "
           (dedup (filter (fun c => negb (PyStr.is_empty c))
                          (map gi_Category (g_items g)))))
        "fuzzy_match"
        (PyNum.round_to 1 (match_percentage m expected (matched_items g)))
        (g_merchant_score g)
        (g_items g).

(** The body of the loop over the groups: [None] when the group is
    passed over, the summary when it is reported. *)
Definition check_group (m : Fuzz.matcher) (total_amount : Q)
           (expected : list NormItem) (g : ReceiptGroup)
  : option DuplicateSummary :=
  if amount_differs total_amount (g_Grand_Total g) then None
  else if is_duplicate m expected (matched_items g)
       then Some (duplicate_summary m expected g)
       else None.

Definition option_list {A : Type} (o : option A) : list A :=
  match o with Some a => [a] | None => [] end.

(** The frame rows that pass the merchant and the date filter *)
Definition df_match (m : Fuzz.matcher) (all_receipts : list LedgerRow)
           (merchant_name : string) (receipt_date : PyDate.datetime)
           (threshold_days fuzzy_threshold : Z) : list DfRow :=
  filter (fun d =>
            match parse_date (row_Date (df_row d)) with
            | Some x =>
                (Z.abs (PyDate.diff_days receipt_date x) <=? threshold_days)%Z
            | None => false
            end)
         (filter (fun d => (fuzzy_threshold <=? df_merchant_score d)%Z)
                 (map (make_df m merchant_name) all_receipts)).

(** [find_duplicate_receipts(receipt, threshold_days, fuzzy_threshold)]
    on the rows [all_receipts] of the sheet.  The whole body is inside
    a [try] whose handler returns the empty list, and no step modelled
    here raises. *)
Definition find_duplicate_receipts (m : Fuzz.matcher)
           (all_receipts : list LedgerRow) (receipt : Receipt)
           (threshold_days fuzzy_threshold : Z) : list DuplicateSummary :=
  match all_receipts with
  | [] => []
  | _ =>
      match PyDate.strptime_dmY (purchase_date receipt) with
      | None => []
      | Some receipt_date =>
          let merchant_name :=
            PyStr.strip (PyStr.lower (name (merchant_details receipt))) in
          let total_amount := total (total_amounts receipt) in
          let rows := df_match m all_receipts merchant_name receipt_date
                               threshold_days fuzzy_threshold in
          match rows with
          | [] => []
          | _ =>
              let groups := receipt_groups rows in
              let expected := expected_items receipt in
              flat_map (fun kv =>
                          option_list
                            (check_group m total_amount expected (snd kv)))
                       groups
          end
      end
  end.

(** [checkDuplicates]: the detector with its default thresholds *)
Definition checkDuplicates (m : Fuzz.matcher) (ledger : list LedgerRow)
           (receipt : Receipt) : list DuplicateSummary :=
  find_duplicate_receipts m ledger receipt 1 85.

(* ===================================================================== *)
(** ** AggregationEngine: [AnalysisService] *)
(* ===================================================================== *)


Record TimeSeriesPoint : Type := mkTSP {
  tsp_date : string;
  tsp_amount : Q;
  tsp_category : option string
}.

Record TrendData : Type := mkTrend {
  td_period : string;
  td_categories : list string;
  td_data : list (string * list TimeSeriesPoint);
  td_total_by_period : list TimeSeriesPoint
}.



(** Every operation reads the clock, some of them more than once in a
    call; the embedding passes the one instant [now] for all the reads
    of a call. *)

(** [AnalysisService._parse_date]: the two formats in turn, and the
    current time when neither fits. *)
Definition _parse_date (now : PyDate.datetime) (date_str : string)
  : PyDate.datetime :=
  match PyDate.strptime_dmY date_str with
  | Some d => d
  | None =>
      match PyDate.strptime_Ymd date_str with
      | Some d => d
      | None => now
      end
  end.

(** Truth value of an optional string argument *)
Definition truthy (s : option string) : bool :=
  match s with
  | Some s => negb (PyStr.is_empty s)
  | None => false
  end.

Definition opt_str (s : option string) : string :=
  match s with Some s => s | None => "" end.

Definition filter_is (date_filter : option string) (v : string) : bool :=
  match date_filter with
  | Some f => String.eqb f v
  | None => false
  end.

(** The date range of a filter: [(filter_start, filter_end)], as
    [get_trends] and [get_category_analysis] both compute it. *)
Definition date_range (now : PyDate.datetime) (date_filter : option string)
           (start_date end_date : option string)
  : option PyDate.datetime * option PyDate.datetime :=
  if filter_is date_filter "last_7" then
    (Some (PyDate.minus_days now 7), None)
  else if filter_is date_filter "last_30" then
    (Some (PyDate.minus_days now 30), None)
  else if filter_is date_filter "last_90" then
    (Some (PyDate.minus_days now 90), None)
  else if filter_is date_filter "this_month" then
    (Some (PyDate.midnight (PyDate.replace_day1 now)), None)
  else if filter_is date_filter "last_month" then
    let first_of_this_month := PyDate.replace_day1 now in
    let filter_end := PyDate.minus_days first_of_this_month 1 in
    (Some (PyDate.replace_day1 filter_end), Some filter_end)
  else if filter_is date_filter "this_year" then
    (Some (PyDate.midnight (PyDate.replace_ymd now (PyDate.year now) 1 1)),
     None)
  else if filter_is date_filter "custom" && truthy start_date then
    match PyDate.strptime_Ymd (opt_str start_date) with
    | None => (None, None)
    | Some fs =>
        if truthy end_date then
          match PyDate.strptime_Ymd (opt_str end_date) with
          | Some fe => (Some fs, Some fe)
          | None => (Some fs, None)
          end
        else (Some fs, None)
    end
  else (None, None).

(** [filter_start and date < filter_start] *)
Definition before_start (fs : option PyDate.datetime) (d : PyDate.datetime)
  : bool :=
  match fs with Some s => PyDate.ltb d s | None => false end.

(** [filter_end and date > filter_end] *)
Definition after_end (fe : option PyDate.datetime) (d : PyDate.datetime)
  : bool :=
  match fe with Some e => PyDate.ltb e d | None => false end.

(** [d[k] += a] on a [defaultdict(float)] *)
Definition add_to (d : list (string * Q)) (k : string) (a : Q)
  : list (string * Q) :=
  Dict.set String.eqb d k (Dict.get_default String.eqb 0%Q d k + a)%Q.

Definition period_key (period : string) (date : PyDate.datetime) : string :=
  if String.eqb period "monthly" then PyDate.strftime_Ym date
  else PyDate.strftime_YWU date.

(** *** [get_trends] *)

(** The body of the loop over the rows, up to the updates: [None] when
    the row is passed over (a [continue], or the handler of
    [ValueError] and [TypeError]), otherwise the category, the period
    key and the amount the row adds. *)
Definition trend_entry (now : PyDate.datetime) (period : string)
           (fs fe : option PyDate.datetime) (receipt : LedgerRow)
  : option (string * string * Q) :=
  let date := _parse_date now (row_Date receipt) in
  if before_start fs date then None
  else if after_end fe date then None
  else
    let category := row_Category receipt in
    let total_price_str := row_Total_Price receipt in
    if PyNum.is_blank_str total_price_str then None
    else
      match PyNum.py_float total_price_str with
      | Raise _ => None
      | Ok amount =>
          if Qle_bool amount 0 then None
          else Some (category, period_key period date, amount)
      end.

Record TrendAcc : Type := mkAcc {
  category_data : list (string * list (string * Q));
  total_by_period : list (string * Q);
  categories_set : list string
}.

Definition trend_update (acc : TrendAcc) (e : string * string * Q)
  : TrendAcc :=
  let '(category, key, amount) := e in
  let series := Dict.get_default String.eqb [] (category_data acc) category in
  mkAcc (Dict.set String.eqb (category_data acc) category
                  (add_to series key amount))
        (add_to (total_by_period acc) key amount)
        (Dict.set_add (categories_set acc) category).

Definition trend_step (now : PyDate.datetime) (period : string)
           (fs fe : option PyDate.datetime) (acc : TrendAcc)
           (receipt : LedgerRow) : TrendAcc :=
  match trend_entry now period fs fe receipt with
  | Some e => trend_update acc e
  | None => acc
  end.

Definition trend_acc (now : PyDate.datetime) (period : string)
           (fs fe : option PyDate.datetime) (receipts : list LedgerRow)
  : TrendAcc :=
  fold_left (trend_step now period fs fe) receipts (mkAcc [] [] []).

Definition time_series (category : option string) (d : list (string * Q))
  : list TimeSeriesPoint :=
  map (fun kv => mkTSP (fst kv) (snd kv) category) (sorted_items d).

(** [get_trends(period, date_filter, start_date, end_date)].  The
    categories are listed from a Python [set]; here they come in order
    of first appearance. *)
Definition get_trends (now : PyDate.datetime) (receipts : list LedgerRow)
           (period : string) (date_filter start_date end_date : option string)
  : TrendData :=
  match receipts with
  | [] => mkTrend period [] [] []
  | _ =>
      let (fs, fe) := date_range now date_filter start_date end_date in
      let acc := trend_acc now period fs fe receipts in
      mkTrend period
              (categories_set acc)
              (map (fun category =>
                      (category,
                       time_series (Some category)
                         (Dict.get_default String.eqb []
                                           (category_data acc) category)))
                   (categories_set acc))
              (time_series None (total_by_period acc))
  end.

(** *** [get_forecast] *)











(** *** [get_category_analysis] *)









(** *** Budgets *)

(** One row of the "Budgets" worksheet *)
Record BudgetRow : Type := mkBudgetRow {
  bud_ID : string;
  bud_Category : string;
  bud_Limit : cell;
  bud_Period : string;
  bud_Period_Type : string;
  bud_Start_Date : string;
  bud_End_Date : string
}.

Record Budget : Type := mkBudget {
  b_id : string;
  b_category : string;
  b_limit : Q;
  b_period : string;
  b_period_type : string;
  b_start_date : option string;
  b_end_date : option string;
  b_current_spend : Q;
  b_percentage_used : Q;
  b_is_exceeded : bool;
  b_period_display : string;
  b_resets_on : string
}.

Record BudgetStatus : Type := mkStatus {
  bs_budgets : list Budget;
  bs_total_budget : Q;
  bs_total_spent : Q;
  bs_overall_percentage : Q
}.

(** The window of a budget, [(range_start, range_end)], as
    [SheetsService.calculate_budget_spending] computes it. *)
Definition budget_range (now : PyDate.datetime) (period period_type : string)
           (start_date end_date : option string)
  : PyDate.datetime * PyDate.datetime :=
  let month_start := PyDate.midnight (PyDate.replace_day1 now) in
  if String.eqb period_type "rolling" then
    (if String.eqb period "weekly" then PyDate.minus_days now 7
     else PyDate.minus_days now 30,
     now)
  else if String.eqb period_type "calendar_month" then
    (month_start,
     if (PyDate.month now =? 12)%Z then
       PyDate.end_of_day (PyDate.replace_ymd now (PyDate.year now) 12 31)
     else
       let next_month :=
         PyDate.replace_ymd now (PyDate.year now) (PyDate.month now + 1) 1 in
       PyDate.add next_month 0 (-1))
  else if String.eqb period_type "calendar_week" then
    let start_of_week := PyDate.minus_days now (PyDate.weekday now) in
    (PyDate.midnight start_of_week,
     PyDate.add start_of_week 6 (23 * 3600 + 59 * 60 + 59))
  else if String.eqb period_type "custom" && truthy start_date
          && truthy end_date then
    match PyDate.strptime_Ymd (opt_str start_date),
          PyDate.strptime_Ymd (opt_str end_date) with
    | Some s, Some e => (s, PyDate.end_of_day e)
    | _, _ => (month_start, now)
    end
  else (month_start, now).

(** The body of the loop over the rows: the amount the row adds, if
    any.  A [float] that fails is caught by the handler inside the
    loop. *)
Definition budget_entry (normalized_category : string)
           (range_start range_end : PyDate.datetime) (receipt : LedgerRow)
  : option Q :=
  let receipt_category := PyStr.strip (row_Category receipt) in
  if negb (String.eqb (_normalize_category receipt_category)
                      normalized_category) then None
  else
    match parse_date (row_Date receipt) with
    | None => None
    | Some receipt_date =>
        if PyDate.leb range_start receipt_date
           && PyDate.leb receipt_date range_end
        then match PyNum.py_float (row_Total_Price receipt) with
             | Ok amount => Some amount
             | Raise _ => None
             end
        else None
    end.

(** [SheetsService.calculate_budget_spending] *)
Definition calculate_budget_spending (now : PyDate.datetime)
           (receipts : list LedgerRow) (category period period_type : string)
           (start_date end_date : option string) : Q :=
  let normalized_category := _normalize_category category in
  let (range_start, range_end) :=
    budget_range now period period_type start_date end_date in
  fold_left (fun total_spending receipt =>
               match budget_entry normalized_category range_start range_end
                                  receipt with
               | Some amount => (total_spending + amount)%Q
               | None => total_spending
               end)
            receipts 0%Q.

(** [AnalysisService._calculate_period_info] *)
Definition _calculate_period_info (now : PyDate.datetime)
           (period_type period : string) (start_date end_date : option string)
  : string * string :=
  if String.eqb period_type "rolling" then
    if String.eqb period "weekly" then
      ("Rolling 7 days (" ++ PyDate.strftime_bd (PyDate.minus_days now 7)
       ++ " - " ++ PyDate.strftime_bdY now ++ ")", "Daily")
    else
      ("Rolling 30 days (" ++ PyDate.strftime_bd (PyDate.minus_days now 30)
       ++ " - " ++ PyDate.strftime_bdY now ++ ")", "Daily")
  else if String.eqb period_type "calendar_month" then
    let month_start := PyDate.replace_day1 now in
    let (month_end, next_reset) :=
      if (PyDate.month now =? 12)%Z then
        (PyDate.replace_ymd now (PyDate.year now) 12 31,
         PyDate.replace_ymd now (PyDate.year now + 1) 1 1)
      else
        let next_month :=
          PyDate.replace_ymd now (PyDate.year now) (PyDate.month now + 1) 1 in
        (PyDate.minus_days next_month 1, next_month) in
    (PyDate.strftime_bd month_start ++ " - " ++ PyDate.strftime_bdY month_end,
     PyDate.strftime_bdY next_reset)
  else if String.eqb period_type "calendar_week" then
    let start_of_week := PyDate.minus_days now (PyDate.weekday now) in
    let end_of_week := PyDate.add start_of_week 6 0 in
    let next_week := PyDate.add start_of_week 7 0 in
    (PyDate.strftime_bd start_of_week ++ " - "
     ++ PyDate.strftime_bdY end_of_week,
     PyDate.strftime_bdY next_week)
  else
    match (if String.eqb period_type "custom" && truthy start_date
              && truthy end_date
           then match PyDate.strptime_Ymd (opt_str start_date),
                      PyDate.strptime_Ymd (opt_str end_date) with
                | Some s, Some e => Some (s, e)
                | _, _ => None
                end
           else None) with
    | Some (s, e) =>
        (PyDate.strftime_bd s ++ " - " ++ PyDate.strftime_bdY e,
         "Does not reset")
    | None => ("Current month", "Next month")
    end.

(** [x or None] on a cell of text *)
Definition or_None (s : string) : option string :=
  if PyStr.is_empty s then None else Some s.

(** [percentage = (current_spend / limit * 100) if limit > 0 else 0] *)
Definition percentage_used (current_spend limit : Q) : Q :=
  if PyNum.Qltb 0 limit then (current_spend / limit * 100)%Q else 0%Q.

(** One iteration of the loop of [get_budget_status].  The conversion
    of the limit is not inside any [try]. *)
Definition budget_of (now : PyDate.datetime) (receipts : list LedgerRow)
           (budget_row : BudgetRow) : result Budget :=
  let category := bud_Category budget_row in
  do limit <- PyNum.py_float (bud_Limit budget_row);
  let period := bud_Period budget_row in
  let period_type := bud_Period_Type budget_row in
  let start_date := or_None (bud_Start_Date budget_row) in
  let end_date := or_None (bud_End_Date budget_row) in
  let current_spend :=
    calculate_budget_spending now receipts category period period_type
                              start_date end_date in
  let percentage := percentage_used current_spend limit in
  let (period_display, resets_on) :=
    _calculate_period_info now period_type period start_date end_date in
  Ok (mkBudget (bud_ID budget_row) category limit period period_type
               start_date end_date current_spend percentage
               (PyNum.Qltb limit current_spend)
               period_display resets_on).

Fixpoint budget_loop (now : PyDate.datetime) (receipts : list LedgerRow)
         (budget_data : list BudgetRow)
         (budgets : list Budget) (total_budget total_spent : Q)
  : result (list Budget * Q * Q) :=
  match budget_data with
  | [] => Ok (budgets, total_budget, total_spent)
  | budget_row :: rest =>
      do b <- budget_of now receipts budget_row;
      budget_loop now receipts rest (budgets ++ [b])%list
                  (total_budget + b_limit b)%Q
                  (total_spent + b_current_spend b)%Q
  end.

(** [AnalysisService.get_budget_status()] on the rows of the
    "Receipts" and the "Budgets" worksheets *)
Definition get_budget_status (now : PyDate.datetime)
           (receipts : list LedgerRow) (budget_data : list BudgetRow)
  : result BudgetStatus :=
  do r <- budget_loop now receipts budget_data [] 0%Q 0%Q;
  let '(budgets, total_budget, total_spent) := r in
  Ok (mkStatus budgets total_budget total_spent
               (if PyNum.Qltb 0 total_budget
                then (total_spent / total_budget * 100)%Q else 0%Q)).

(** *** Goals *)

Record Goal : Type := mkGoal {
  goal_id : option string;
  goal_name : string;
  goal_target_amount : Q;
  goal_current_amount : Q;
  goal_target_date : string;
  goal_category : option string;
  goal_type : string;
  goal_auto_track : bool
}.

(** One row of the "Goal Transactions" worksheet *)
Record TxnRow : Type := mkTxn {
  txn_Goal_ID : string;
  txn_Amount : cell;
  txn_Type : string
}.

Definition get_goal_transactions (txns : list TxnRow) (goal_id : string)
  : list TxnRow :=
  filter (fun t => String.eqb (txn_Goal_ID t) goal_id) txns.

Fixpoint transaction_total (txns : list TxnRow) (acc : Q) : result Q :=
  match txns with
  | [] => Ok acc
  | txn :: rest =>
      do amount <- PyNum.py_float (txn_Amount txn);
      transaction_total rest
        (if String.eqb (txn_Type txn) "deposit" then (acc + amount)%Q
         else if String.eqb (txn_Type txn) "withdrawal" then (acc - amount)%Q
         else acc)
  end.

(** The spending of a category up to a date, over all the rows *)
Definition spending_until (receipts : list LedgerRow) (category : string)
           (target_date : PyDate.datetime) : Q :=
  fold_left
    (fun spending receipt =>
       if String.eqb (PyStr.lower (PyStr.strip (row_Category receipt)))
                     (PyStr.lower category) then
         match parse_date (row_Date receipt) with
         | None => spending
         | Some receipt_date =>
             if PyDate.leb receipt_date target_date then
               match PyNum.py_float (row_Total_Price receipt) with
               | Ok a => (spending + a)%Q
               | Raise _ => spending
               end
             else spending
         end
       else spending)
    receipts 0%Q.

(** [SheetsService.calculate_goal_progress(goal)]: the whole body is
    inside a [try] whose handler returns the stored amount. *)
Definition calculate_goal_progress (now : PyDate.datetime)
           (receipts : list LedgerRow) (txns : list TxnRow) (goal : Goal)
  : Q :=
  if negb (goal_auto_track goal) then goal_current_amount goal
  else
    match transaction_total
            (get_goal_transactions txns (opt_str (goal_id goal))) 0%Q with
    | Raise _ => goal_current_amount goal
    | Ok total_txn =>
        if String.eqb (goal_type goal) "savings" then total_txn
        else if String.eqb (goal_type goal) "spending_limit" then
          if truthy (goal_category goal) then
            match PyDate.strptime_Ymd (goal_target_date goal) with
            | None => 0%Q
            | Some target_date =>
                if ((PyDate.month target_date =? PyDate.month now)
                    && (PyDate.year target_date =? PyDate.year now))%Z
                then calculate_budget_spending
                       now receipts (opt_str (goal_category goal))
                       "monthly" "calendar_month" None None
                else spending_until receipts (opt_str (goal_category goal))
                                    target_date
            end
          else 0%Q
        else goal_current_amount goal
    end.



(** The time of day of a [datetime] lies within its day. *)
Definition well_formed (d : PyDate.datetime) : Prop :=
  (0 <= PyDate.tod_us d < PyDate.day_us)%Z.


(* ===================================================================== *)
(** ** Concrete ledgers *)
(* ===================================================================== *)

Module Scenario.

(** A row as [save_receipt] writes it for a receipt whose total is
    [grand_total] and which carries no tax. *)
Definition saved_row (date merchant item cat : string) (line_price : Q)
           (grand_total : cell) : LedgerRow :=
  mkRow date merchant (CStr "1 Main St") item cat (CNum 1) (CNum line_price)
      (CNum line_price) (CStr "") grand_total (CStr "card").

(** Receipt A: 01-01-2025, "Walmart", Milk 3.50 and Bread 2.00, grand
    total 5.50. *)
Definition ledger_A : list LedgerRow :=
  [ saved_row "01-01-2025" "Walmart" "Milk" "Groceries" (7 # 2) (CNum (11 # 2));
  saved_row "01-01-2025" "Walmart" "Bread" "Groceries" 2 (CNum (11 # 2)) ].

(** The candidate of the same purchase under a given merchant name *)
Definition candidate_A (merchant : string) : Receipt :=
  mkReceipt (mkMerchant merchant "1 Main St") "01-01-2025"
          [ mkItem "milk" (7 # 2) 1 (7 # 2) "Groceries";
            mkItem "bread" 2 1 2 "Groceries" ]
          (mkTotals (11 # 2) None "card").

(** The rows of a purchase whose "Grand Total" cells were left blank *)
Definition ledger_blank_total : list LedgerRow :=
  [ saved_row "01-01-2025" "Walmart" "Milk" "Groceries" (7 # 2) (CStr "");
  saved_row "01-01-2025" "Walmart" "Bread" "Groceries" 2 (CStr "") ].

(** 10 February 2025, noon *)
Definition now_0 : PyDate.datetime :=
  PyDate.mkdt (PyDate.ymd2ord 2025 2 10) (12 * 3600 * 1000000).

(** A row whose date is in neither format *)
Definition bad_date_row : LedgerRow :=
  saved_row "sometime in March" "Cafe" "Lunch" "Dining" 10 (CNum 10).

(** A budget whose "Limit" cell was left blank *)
Definition budget_blank_limit : BudgetRow :=
  mkBudgetRow "budget_1" "Dining" (CStr "") "monthly" "calendar_month" "" "".

Definition budget_zero_limit : BudgetRow :=
  mkBudgetRow "budget_2" "Dining" (CNum 0) "monthly" "rolling" "" "".

Definition budget_dining_40 : BudgetRow :=
  mkBudgetRow "budget_3" "Dinings" (CStr "40") "weekly" "rolling" "" "".

Definition ledger_dining : list LedgerRow :=
  [ saved_row "15-01-2025" "Cafe" "Lunch" "Dining" 10 (CNum 10);
  saved_row "2025-02-08" "Cafe" "Dinner" "Dining" 20 (CNum 20);
  saved_row "09-02-2025" "Market" "Apples" "Groceries" 6 (CNum 6) ].

(** A receipt whose purchase date is written yyyy-mm-dd *)
Definition receipt_iso : Receipt :=
  mkReceipt (mkMerchant "Walmart" "1 Main St") "2025-01-01"
            [mkItem "milk" (7 # 2) 1 (7 # 2) "Groceries"]
            (mkTotals (7 # 2) None "card").

End Scenario.


(* ===================================================================== *)
(** ** Invariants and measures used in the proofs *)
(* ===================================================================== *)

Local Open Scope Q_scope.



(** Every amount a dictionary holds is strictly positive. *)
Definition positive (d : list (string * Q)) : Prop :=
  forall k v, In (k, v) d -> 0 < v.

(** The invariant of the loop of [get_trends] *)
Record trend_inv (acc : TrendAcc) : Prop := mkInv {
  inv_total_keys : NoDup (Dict.keys (total_by_period acc));
  inv_cat_keys : NoDup (Dict.keys (category_data acc));
  inv_series_keys :
    forall c s, In (c, s) (category_data acc) -> NoDup (Dict.keys s);
  inv_categories : categories_set acc = Dict.keys (category_data acc);
  inv_total_positive : positive (total_by_period acc);
  inv_series_positive :
    forall c s, In (c, s) (category_data acc) -> positive s;
  inv_sum :
    forall k,
      Dict.get_default String.eqb 0 (total_by_period acc) k
      == PyNum.Qsum (map (fun cs => Dict.get_default String.eqb 0 (snd cs) k)
                         (category_data acc))
}.




(** Order of the period keys, by code point *)
Definition key_lt {V : Type} (x y : string * V) : Prop :=
  String.ltb (fst x) (fst y) = true.

(** A series in strictly increasing order of its period keys *)
Definition increasing (l : list TimeSeriesPoint) : Prop :=
  StronglySorted
    (fun p q => String.ltb (tsp_date p) (tsp_date q) = true) l.





(** A reconstructed group carries the header of the row [x]. *)
Definition group_header (g : ReceiptGroup) (x : DfRow) : Prop :=
  g_Date g = row_Date (df_row x)
  /\ g_Merchant g = df_Merchant x
  /\ g_Grand_Total g = df_Grand_Total x
  /\ g_merchant_score g = df_merchant_score x
  /\ is_zero (df_Grand_Total x) = false.


Local Close Scope Q_scope.


(* ===================================================================== *)
(** ** Writing to the worksheets *)
(* ===================================================================== *)

(** A worksheet is the list of its records below the header, in row
    order: [append_row] and [append_rows] add at the end, [update] of a
    row replaces it in place, [delete_rows] of a row removes it.  A
    record holds the text of a cell written as text and the number of
    a cell written as a number. *)

(** gspread's [get_all_records] turns a cell whose text [int()] or
    [float()] accepts into a number and leaves any other text, and any
    text with an underscore, as it is. *)
Definition spells_nonfinite (s : string) : bool :=
  let (_, l) := PyNum.take_sign (PyStr.strip_l (PyStr.chars s)) in
  let t := PyStr.lower (PyStr.str l) in
  (String.eqb t "inf" || String.eqb t "infinity" || String.eqb t "nan")%bool.

Definition stays_text (s : string) : bool :=
  match PyNum.float_of_string s with
  | Some _ => false
  | None => negb (spells_nonfinite s)
  end.

(** [b.get("ID") == budget_id] for a record read from the worksheet and
    an id that is a [str]: an "ID" cell that was read as a number equals
    no string. *)
Definition same_id (b : BudgetRow) (budget_id : string) : bool :=
  (stays_text (bud_ID b) && String.eqb (bud_ID b) budget_id)%bool.

(** [receipt.total_amounts.tax if receipt.total_amounts.tax else ""] *)
Definition tax_cell (t : option Q) : cell :=
  match t with
  | Some q => if Qeq_bool q 0 then CStr "" else CNum q
  | None => CStr ""
  end.

(** The row [SheetsService.save_receipt] writes for a line item, as it
    is read back when the date, the merchant and the item name are
    text cells ([stays_text]). *)
Definition saved_row_of (receipt : Receipt) (item : LineItem) : LedgerRow :=
  mkRow (purchase_date receipt)
        (name (merchant_details receipt))
        (CStr (address (merchant_details receipt)))
        (item_name item)
        (category item)
        (CNum (quantity item))
        (CNum (unit_price item))
        (CNum (price item))
        (tax_cell (tax (total_amounts receipt)))
        (CNum (total (total_amounts receipt)))
        (CStr (payment_method (total_amounts receipt))).

(** The rows [SheetsService.save_receipt] appends, one per line item *)
Definition receipt_rows (receipt : Receipt) : list LedgerRow :=
  map (saved_row_of receipt) (line_items receipt).

(** [SheetsService.save_receipt] on the "Receipts" worksheet *)
Definition save_receipt (ledger : list LedgerRow) (receipt : Receipt)
  : list LedgerRow :=
  (ledger ++ receipt_rows receipt)%list.

Inductive confirmation : Type :=
| DuplicateDetected (duplicates : list DuplicateSummary)
| Saved (items_saved : nat).

(** The ledger step of the route [confirm_receipt]: the duplicate check
    unless [force_save], and the save when it reports nothing. *)
Definition confirm_receipt (m : Fuzz.matcher) (ledger : list LedgerRow)
           (receipt : Receipt) (force_save : bool)
  : list LedgerRow * confirmation :=
  match (if force_save then []
         else find_duplicate_receipts m ledger receipt 1 85) with
  | (_ :: _) as duplicates => (ledger, DuplicateDetected duplicates)
  | [] => (save_receipt ledger receipt,
           Saved (List.length (line_items receipt)))
  end.

(** The row [SheetsService.save_budget] writes *)
Definition budget_row (budget_id : string) (budget : Budget) : BudgetRow :=
  mkBudgetRow budget_id (b_category budget) (CNum (b_limit budget))
              (b_period budget) (b_period_type budget)
              (opt_str (b_start_date budget)) (opt_str (b_end_date budget)).


(** Replaces the first row that carries the id, or appends the row. *)
Fixpoint write_budget (budget_id : string) (row : BudgetRow)
         (sheet : list BudgetRow) : list BudgetRow :=
  match sheet with
  | [] => [row]
  | b :: rest =>
      if same_id b budget_id then row :: rest
      else b :: write_budget budget_id row rest
  end.

(** [SheetsService.save_budget]; [fresh_id] is the
    [f"budget_{datetime.now().timestamp()}"] used when the budget has
    no id. *)
Definition save_budget (fresh_id : string) (sheet : list BudgetRow)
           (budget : Budget) : list BudgetRow :=
  let budget_id :=
    if PyStr.is_empty (b_id budget) then fresh_id else b_id budget in
  write_budget budget_id (budget_row budget_id budget) sheet.

(** [SheetsService.delete_budget]: the sheet afterwards and the
    returned flag *)
Fixpoint delete_budget (sheet : list BudgetRow) (budget_id : string)
  : list BudgetRow * bool :=
  match sheet with
  | [] => ([], false)
  | b :: rest =>
      if same_id b budget_id then (rest, true)
      else let (rest', found) := delete_budget rest budget_id in
           (b :: rest', found)
  end.

(** The record the loops over the "Budgets" worksheet find for an id *)
Definition find_budget (sheet : list BudgetRow) (budget_id : string)
  : option BudgetRow :=
  find (fun b => same_id b budget_id) sheet.

(** What a row adds to the spending of a budget *)
Definition budget_share (now : PyDate.datetime)
           (category period period_type : string)
           (start_date end_date : option string) (r : LedgerRow) : Q :=
  match budget_entry (_normalize_category category)
                     (fst (budget_range now period period_type
                                        start_date end_date))
                     (snd (budget_range now period period_type
                                        start_date end_date)) r with
  | Some a => a
  | None => 0%Q
  end.

(** [item_name and item_name.upper() != "TOTAL"] on the trimmed name
    of a row: whether the grouping loop keeps the row's item. *)
Definition item_kept (item : string) : bool :=
  negb (PyStr.is_empty (PyStr.strip item))
  && negb (String.eqb (PyStr.upper (PyStr.strip item)) "TOTAL").

(** Whether the name and the category of a line item are read back as
    text *)
Definition text_item (item : LineItem) : bool :=
  stays_text (item_name item) && stays_text (category item).

(** The item the grouping loop records for a line item saved by
    [save_receipt] *)
Definition saved_item (item : LineItem) : GroupItem :=
  mkGroupItem (PyStr.strip (item_name item)) (category item)
              (CNum (quantity item)) (CNum (unit_price item))
              (Some (price item)).

(** The key under which the grouping loop files the rows saved for a
    receipt *)
Definition saved_key (receipt : Receipt) : string :=
  purchase_date receipt ++ "|"
  ++ PyStr.strip (PyStr.lower (name (merchant_details receipt))) ++ "|"
  ++ PyNum.format_2f (Some (total (total_amounts receipt))).

(** The signed amount of a goal transaction: deposits add, withdrawals
    subtract, any other type counts for nothing. *)
Definition signed_amount (txn : TxnRow) (amount : Q) : Q :=
  if String.eqb (txn_Type txn) "deposit" then amount
  else if String.eqb (txn_Type txn) "withdrawal" then (- amount)%Q
  else 0%Q.

(** What a goal transaction adds to the total of its goal *)
Definition txn_share (txn : TxnRow) : Q :=
  match PyNum.py_float (txn_Amount txn) with
  | Ok amount => signed_amount txn amount
  | Raise _ => 0%Q
  end.

(* ===================================================================== *)
(** * Properties *)
(* ===================================================================== *)

(** ** Strings *)

Module PyStrFacts.
Import PyStr.

Lemma chars_str (l : list ascii) : chars (str l) = l.
Proof. apply list_ascii_of_string_of_list_ascii. Qed.

Lemma str_chars (s : string) : str (chars s) = s.
Proof. apply string_of_list_ascii_of_string. Qed.

Lemma chars_inj (s t : string) : chars s = chars t -> s = t.
Proof.
  intros H. rewrite <- (str_chars s), <- (str_chars t). now rewrite H.
Qed.

Lemma chars_app (s t : string) : chars (s ++ t) = (chars s ++ chars t)%list.
Proof.
  induction s as [|c s IH]; simpl; [reflexivity|].
  unfold chars in *. simpl. now rewrite IH.
Qed.

Lemma str_app (a b : list ascii) : str (a ++ b)%list = str a ++ str b.
Proof.
  apply chars_inj. now rewrite chars_app, !chars_str.
Qed.

Lemma list_eqb_eq (a b : list ascii) : list_eqb a b = true <-> a = b.
Proof.
  revert b. induction a as [|x a IH]; intros [|y b]; simpl;
    try (split; [discriminate|discriminate]); try tauto.
  rewrite andb_true_iff, Ascii.eqb_eq, IH. split.
  - intros [-> ->]. reflexivity.
  - intros H. injection H as -> ->. tauto.
Qed.

(** [endswith] decides being of the form [p ++ suf]. *)
Lemma endswith_true (s suf : string) :
  endswith s suf = true <-> exists p, s = p ++ suf.
Proof.
  unfold endswith. rewrite andb_true_iff, Nat.leb_le, list_eqb_eq. split.
  - intros [Hlen Heq].
    set (k := (List.length (chars s) - List.length (chars suf))%nat) in *.
    exists (str (firstn k (chars s))).
    apply chars_inj. rewrite chars_app, chars_str, <- Heq.
    symmetry. apply firstn_skipn.
  - intros [p ->]. rewrite chars_app, length_app. split; [lia|].
    replace (List.length (chars p) + List.length (chars suf)
             - List.length (chars suf))%nat
      with (List.length (chars p)) by lia.
    now rewrite skipn_app, skipn_all, Nat.sub_diag.
Qed.

Lemma endswith_false (s suf : string) :
  endswith s suf = false <-> ~ exists p, s = p ++ suf.
Proof.
  rewrite <- endswith_true. destruct (endswith s suf); split;
    congruence.
Qed.

Lemma drop_last_app (p suf : string) :
  drop_last (String.length suf) (p ++ suf) = p.
Proof.
  unfold drop_last. apply chars_inj.
  rewrite chars_str, chars_app, length_app.
  assert (Hl : String.length suf = List.length (chars suf)).
  { clear. induction suf as [|c s IH]; simpl; [reflexivity|].
    unfold chars in *. simpl. now rewrite IH. }
  rewrite Hl.
  replace (List.length (chars p) + List.length (chars suf)
           - List.length (chars suf))%nat
    with (List.length (chars p) + 0)%nat by lia.
  now rewrite firstn_app_2, firstn_O, app_nil_r.
Qed.

Lemma app_inv_tail_str (p q t : string) : p ++ t = q ++ t -> p = q.
Proof.
  intros H. apply chars_inj.
  apply (f_equal chars) in H. rewrite !chars_app in H.
  now apply app_inv_tail in H.
Qed.

Lemma lower_char_idem (c : ascii) : lower_char (lower_char c) = lower_char c.
Proof. destruct c as [[] [] [] [] [] [] [] []]; reflexivity. Qed.

Lemma is_space_lower_char (c : ascii) : is_space (lower_char c) = is_space c.
Proof. destruct c as [[] [] [] [] [] [] [] []]; reflexivity. Qed.

Lemma lower_idem (s : string) : lower (lower s) = lower s.
Proof.
  unfold lower. rewrite chars_str, map_map. f_equal.
  apply map_ext. intros c. apply lower_char_idem.
Qed.

Lemma lower_app (s t : string) : lower (s ++ t) = lower s ++ lower t.
Proof. unfold lower. now rewrite chars_app, map_app, str_app. Qed.

Lemma dropwhile_map_lower (l : list ascii) :
  dropwhile is_space (map lower_char l)
  = map lower_char (dropwhile is_space l).
Proof.
  induction l as [|c l IH]; simpl; [reflexivity|].
  rewrite is_space_lower_char. now destruct (is_space c).
Qed.

Lemma strip_l_map_lower (l : list ascii) :
  strip_l (map lower_char l) = map lower_char (strip_l l).
Proof.
  unfold strip_l, rstrip_l, lstrip_l.
  now rewrite dropwhile_map_lower, <- map_rev, dropwhile_map_lower, map_rev.
Qed.

(** Stripping and lower-casing commute. *)
Lemma lower_strip (s : string) : lower (strip s) = strip (lower s).
Proof.
  unfold lower, strip. now rewrite !chars_str, strip_l_map_lower.
Qed.

End PyStrFacts.

(** ** Numbers *)

Module PyNumFacts.

Lemma Qltb_lt (a b : Q) : PyNum.Qltb a b = true <-> (a < b)%Q.
Proof.
  unfold PyNum.Qltb. rewrite negb_true_iff. split.
  - intros H. apply Qnot_le_lt. intros Hle.
    apply Qle_bool_iff in Hle. congruence.
  - intros H. destruct (Qle_bool b a) eqn:E; [|reflexivity].
    apply Qle_bool_iff in E. exfalso. apply (Qlt_not_le _ _ H E).
Qed.

Lemma Qltb_ge (a b : Q) : PyNum.Qltb a b = false <-> (b <= a)%Q.
Proof.
  unfold PyNum.Qltb. rewrite negb_false_iff. apply Qle_bool_iff.
Qed.

End PyNumFacts.

(** ** CategoryNormalizer *)

Module NormalizeFacts.
Import PyStr PyStrFacts.

Lemma app_assoc_str (a b c : string) : (a ++ b) ++ c = a ++ (b ++ c).
Proof.
  apply chars_inj. now rewrite !chars_app, app_assoc.
Qed.

Lemma app_single_inj (p q : string) (c d : ascii) :
  p ++ String c "" = q ++ String d "" -> p = q /\ c = d.
Proof.
  intros H. apply (f_equal chars) in H. rewrite !chars_app in H.
  apply app_inj_tail in H. destruct H as [H ->].
  split; [now apply chars_inj | reflexivity].
Qed.

(** A string that ends in [suf ++ c] ends in the character [c]. *)
Lemma endswith_last (s suf : string) (c d : ascii) :
  endswith (s ++ String c "") (suf ++ String d "") = true -> c = d.
Proof.
  rewrite endswith_true. intros [p H].
  rewrite <- app_assoc_str in H.
  now apply app_single_inj in H.
Qed.

Lemma endswith_app (p suf : string) : endswith (p ++ suf) suf = true.
Proof. apply endswith_true. now exists p. Qed.

Lemma not_ies_of_not_ie (p : string) :
  endswith p "ie" = false -> endswith (p ++ "s") "ies" = false.
Proof.
  rewrite !endswith_false. intros H [q Hq]. apply H. exists q.
  change "ies" with ("ie" ++ "s") in Hq. rewrite <- app_assoc_str in Hq.
  now apply app_inv_tail_str in Hq.
Qed.

Lemma not_ss_of_not_s (p : string) :
  endswith p "s" = false -> endswith (p ++ "s") "ss" = false.
Proof.
  rewrite !endswith_false. intros H [q Hq]. apply H. exists q.
  change "ss" with ("s" ++ "s") in Hq. rewrite <- app_assoc_str in Hq.
  now apply app_inv_tail_str in Hq.
Qed.

Lemma not_s_of_not_ss (p : string) :
  endswith (p ++ "s") "ss" = false -> endswith p "s" = false.
Proof.
  rewrite !endswith_false. intros H [q Hq]. apply H. exists q.
  subst p. now rewrite app_assoc_str.
Qed.

Lemma not_ies_of_not_s (p : string) :
  endswith p "s" = false -> endswith p "ies" = false.
Proof.
  rewrite !endswith_false. intros H [q Hq]. apply H. exists (q ++ "ie").
  subst p. now rewrite app_assoc_str.
Qed.

(** The normal form of a category is in lower case. *)
Lemma lower_strip_lower (c : string) :
  lower (strip (lower c)) = strip (lower c).
Proof. now rewrite lower_strip, lower_idem. Qed.

Lemma lower_prefix (p suf : string) :
  lower suf = suf -> lower (p ++ suf) = p ++ suf -> lower p = p.
Proof.
  intros Hs H. rewrite lower_app, Hs in H. now apply app_inv_tail_str in H.
Qed.

(** What the normalizer returns, by the shape of the stripped
    lower-case input. *)
Lemma normalize_ies (c p : string) :
  strip (lower c) = p ++ "ies" -> _normalize_category c = p ++ "y".
Proof.
  intros H. unfold _normalize_category. rewrite H, endswith_app.
  pose proof (drop_last_app p "ies") as D. simpl in D. now rewrite D.
Qed.

Lemma normalize_s (c p : string) :
  strip (lower c) = p ++ "s" ->
  endswith p "ie" = false -> endswith p "s" = false ->
  _normalize_category c = p.
Proof.
  intros H Hie Hs. unfold _normalize_category.
  rewrite H, (not_ies_of_not_ie p Hie), endswith_app,
    (not_ss_of_not_s p Hs).
  simpl. apply (drop_last_app p "s").
Qed.

Lemma normalize_other (c : string) :
  endswith (strip (lower c)) "ies" = false ->
  endswith (strip (lower c)) "s" = false
  \/ endswith (strip (lower c)) "ss" = true ->
  _normalize_category c = strip (lower c).
Proof.
  intros H1 H2. unfold _normalize_category. rewrite H1.
  destruct H2 as [-> | ->]; [reflexivity|].
  now rewrite andb_false_r.
Qed.

(** A lower-case, stripped string with no plural ending is its own
    normal form. *)
Lemma normalize_fixed (s : string) :
  lower s = s -> strip s = s ->
  endswith s "s" = false ->
  _normalize_category s = s.
Proof.
  intros Hl Hs He.
  rewrite normalize_other; rewrite Hl, Hs; auto.
  now apply not_ies_of_not_s.
Qed.

End NormalizeFacts.

(** C4, as the code has it: the normalizer lower-cases and trims its
    input, replaces a trailing "ies" by "y", otherwise drops a trailing
    "s" that is not preceded by another "s", and otherwise leaves the
    trimmed lower-case text; so "Groceries" and "Grocery" both give
    "grocery", "Items" gives "item", and "Bus", which ends in a single
    "s", gives "bu". *)
Theorem normalize_category_rules :
  (forall c p : string,
      PyStr.strip (PyStr.lower c) = p ++ "ies" ->
      _normalize_category c = p ++ "y")
  /\ (forall c p : string,
         PyStr.strip (PyStr.lower c) = p ++ "s" ->
         PyStr.endswith p "ie" = false -> PyStr.endswith p "s" = false ->
         _normalize_category c = p)
  /\ (forall c : string,
         PyStr.endswith (PyStr.strip (PyStr.lower c)) "ies" = false ->
         PyStr.endswith (PyStr.strip (PyStr.lower c)) "s" = false
         \/ PyStr.endswith (PyStr.strip (PyStr.lower c)) "ss" = true ->
         _normalize_category c = PyStr.strip (PyStr.lower c))
  /\ _normalize_category "Groceries" = "grocery"
  /\ _normalize_category "Grocery" = "grocery"
  /\ _normalize_category "Items" = "item"
  /\ _normalize_category "Bus" = "bu".
Proof.
  split; [exact NormalizeFacts.normalize_ies|].
  split; [exact NormalizeFacts.normalize_s|].
  split; [exact NormalizeFacts.normalize_other|].
  repeat split; reflexivity.
Qed.

Lemma normalize_category_rules_witness :
  PyStr.strip (PyStr.lower "  Parties ") = "part" ++ "ies"
  /\ _normalize_category "  Parties " = "part" ++ "y".
Proof.
  split; [reflexivity|].
  apply (proj1 normalize_category_rules "  Parties " "part").
  reflexivity.
Defined.

(** C4 as stated fails on its last example: the normal form of "Bus"
    is not "bus". *)
Lemma normalize_Bus_is_not_bus : _normalize_category "Bus" <> "bus".
Proof. discriminate. Qed.

(** C10, as the code has it: normalizing twice is the same as
    normalizing once whenever the normal form carries no surrounding
    whitespace, that is, whenever stripping it changes nothing. *)
Theorem normalize_category_idempotent_on_stripped (c : string) :
  PyStr.strip (_normalize_category c) = _normalize_category c ->
  _normalize_category (_normalize_category c) = _normalize_category c.
Proof.
  pose proof (NormalizeFacts.lower_strip_lower c) as Hlow.
  remember (_normalize_category c) as m eqn:Hm.
  unfold _normalize_category in Hm.
  set (n := PyStr.strip (PyStr.lower c)) in *.
  intros Hstrip.
  destruct (PyStr.endswith n "ies") eqn:Hies.
  - (* n = p ++ "ies" *)
    apply PyStrFacts.endswith_true in Hies. destruct Hies as [p Hp].
    pose proof (PyStrFacts.drop_last_app p "ies") as D. simpl in D.
    rewrite Hp, D in Hm. subst m.
    apply NormalizeFacts.normalize_fixed; trivial.
    + rewrite PyStrFacts.lower_app. f_equal.
      apply (NormalizeFacts.lower_prefix p "ies"); [reflexivity|].
      now rewrite <- Hp.
    + destruct (PyStr.endswith (p ++ "y") "s") eqn:E; [|reflexivity].
      apply (NormalizeFacts.endswith_last p "" "y" "s") in E. discriminate.
  - destruct (PyStr.endswith n "s") eqn:Hs; simpl in Hm.
    + destruct (PyStr.endswith n "ss") eqn:Hss; simpl in Hm.
      * (* unchanged *)
        subst m. rewrite NormalizeFacts.normalize_other;
          rewrite Hlow, Hstrip; auto.
      * (* n = p ++ "s", p not ending in "s" *)
        apply PyStrFacts.endswith_true in Hs. destruct Hs as [p Hp].
        pose proof (PyStrFacts.drop_last_app p "s") as D. simpl in D.
        rewrite Hp in *. rewrite D in Hm. subst m.
        apply NormalizeFacts.normalize_fixed; trivial.
        -- now apply (NormalizeFacts.lower_prefix p "s").
        -- now apply NormalizeFacts.not_s_of_not_ss.
    + subst m. rewrite NormalizeFacts.normalize_other;
        rewrite Hlow, Hstrip; auto.
Qed.

Lemma normalize_category_idempotent_witness :
  PyStr.strip (_normalize_category "Groceries") = _normalize_category "Groceries"
  /\ _normalize_category (_normalize_category "Groceries")
     = _normalize_category "Groceries".
Proof.
  split; [reflexivity|].
  apply (normalize_category_idempotent_on_stripped "Groceries").
  reflexivity.
Defined.

(** C10 as stated fails: the normal form of "a s" is "a " with its
    trailing space, and normalizing that gives "a". *)
Lemma normalize_category_not_idempotent :
  _normalize_category (_normalize_category "a s") <> _normalize_category "a s".
Proof. discriminate. Qed.

(** ** DuplicateDetector *)

(** C1, as the code has it, whichever sequence matcher backs
    fuzzywuzzy: against the stored receipt A, the candidate under the
    merchant name "WAL-MART" is given no duplicate, because
    "wal-mart" is processed to the two tokens "wal" and "mart", whose
    token-set similarity to "walmart" is 53, below the threshold 85;
    under the name "WALMART", which differs from the stored one in
    case only, it is given exactly one, with match percentage 100. *)
Theorem checkDuplicates_receipt_A (m : Fuzz.matcher) :
  Fuzz.token_set_ratio m "walmart" "wal-mart" = 53%Z
  /\ checkDuplicates m Scenario.ledger_A (Scenario.candidate_A "WAL-MART") = []
  /\ exists d : DuplicateSummary,
      checkDuplicates m Scenario.ledger_A (Scenario.candidate_A "WALMART")
      = [d]
      /\ (d_match_percentage d == 100)%Q
      /\ d_merchant_score d = 100%Z
      /\ d_match_type d = "fuzzy_match".
Proof.
  destruct m.
  - split; [vm_compute; reflexivity|]. split; [vm_compute; reflexivity|].
    eexists. split; [vm_compute; reflexivity|].
    repeat split; reflexivity.
  - split; [vm_compute; reflexivity|]. split; [vm_compute; reflexivity|].
    eexists. split; [vm_compute; reflexivity|].
    repeat split; reflexivity.
Qed.

(** C1 as stated fails: for the candidate named "WAL-MART" the check
    returns no candidate at all, under either matcher. *)
Lemma checkDuplicates_WAL_MART_none :
  checkDuplicates Fuzz.Difflib Scenario.ledger_A
                  (Scenario.candidate_A "WAL-MART") = []
  /\ checkDuplicates Fuzz.Levenshtein Scenario.ledger_A
                     (Scenario.candidate_A "WAL-MART") = [].
Proof. split; vm_compute; reflexivity. Qed.

Module DuplicateFacts.

(** The decision taken on a group whose grand total is a number. *)
Lemma check_group_numeric (m : Fuzz.matcher) (total_amount t : Q)
      (expected : list NormItem) (g : ReceiptGroup) :
  g_Grand_Total g = Some t ->
  (exists d, check_group m total_amount expected g = Some d)
  <-> (PyNum.Qabs' (total_amount - t) <= 1 # 100)%Q
      /\ (70 <= match_percentage m expected (matched_items g))%Q.
Proof.
  intros Ht. unfold check_group, amount_differs, is_duplicate. rewrite Ht.
  destruct (PyNum.Qltb (1 # 100) (PyNum.Qabs' (total_amount - t))) eqn:E.
  - apply PyNumFacts.Qltb_lt in E. split.
    + intros [d Hd]. discriminate.
    + intros [H _]. exfalso. apply (Qlt_not_le _ _ E H).
  - apply PyNumFacts.Qltb_ge in E.
    destruct (Qle_bool 70 (match_percentage m expected (matched_items g)))
      eqn:F.
    + apply Qle_bool_iff in F. split; [tauto|]. intros _. eexists. reflexivity.
    + split.
      * intros [d Hd]. discriminate.
      * intros [_ H]. apply Qle_bool_iff in H. congruence.
Qed.

(** The match percentage is the share of matched candidate items in the
    longer of the two item lists. *)
Lemma match_percentage_formula (m : Fuzz.matcher)
      (expected matched : list NormItem) :
  (0 < Nat.max (List.length expected) (List.length matched))%nat ->
  (match_percentage m expected matched
   == inject_Z (Z.of_nat (matched_count m expected matched))
      / inject_Z (Z.of_nat (Nat.max (List.length expected)
                                    (List.length matched)))
      * 100)%Q.
Proof.
  intros H. unfold match_percentage, total_items.
  destruct (Nat.max (List.length expected) (List.length matched));
    [lia|reflexivity].
Qed.

(** What [find_duplicate_receipts] returns are the summaries of the
    reconstructed groups on which [check_group] decides to report. *)
Lemma reported_from_group (m : Fuzz.matcher) (all_receipts : list LedgerRow)
      (receipt : Receipt) (threshold_days fuzzy_threshold : Z)
      (d : DuplicateSummary) :
  In d (find_duplicate_receipts m all_receipts receipt threshold_days
                                fuzzy_threshold) ->
  exists (receipt_date : PyDate.datetime) (kv : string * ReceiptGroup),
    PyDate.strptime_dmY (purchase_date receipt) = Some receipt_date
    /\ In kv (receipt_groups
                (df_match m all_receipts
                   (PyStr.strip (PyStr.lower (name (merchant_details receipt))))
                   receipt_date threshold_days fuzzy_threshold))
    /\ check_group m (total (total_amounts receipt))
                   (expected_items receipt) (snd kv) = Some d.
Proof.
  unfold find_duplicate_receipts.
  destruct all_receipts as [|r0 rs]; [intros []|].
  destruct (PyDate.strptime_dmY (purchase_date receipt)) as [rd|];
    [|intros []].
  remember (df_match m (r0 :: rs)
              (PyStr.strip (PyStr.lower (name (merchant_details receipt))))
              rd threshold_days fuzzy_threshold) as rows eqn:Hrows.
  destruct rows as [|x xs]; [intros []|].
  rewrite in_flat_map. intros [kv [Hin Hd]].
  exists rd, kv. split; [reflexivity|]. split; [now rewrite <- Hrows|].
  destruct (check_group _ _ _ (snd kv)); simpl in Hd; [|contradiction].
  destruct Hd as [-> | []]. reflexivity.
Qed.

End DuplicateFacts.

(** C6 on the rows of a purchase whose "Grand Total" cells are blank:
    the coerced total of the reconstructed group is NaN, no
    comparison with it holds, the test [amount_diff > 0.01] does not
    reject the group, and the group is reported against a candidate
    whose total is 5.50. *)
Theorem blank_total_group_is_reported (m : Fuzz.matcher) :
  exists d : DuplicateSummary,
    checkDuplicates m Scenario.ledger_blank_total
                    (Scenario.candidate_A "Walmart") = [d]
    /\ d_Grand_Total d = None
    /\ total (total_amounts (Scenario.candidate_A "Walmart")) = (11 # 2)%Q
    /\ (d_match_percentage d == 100)%Q.
Proof.
  destruct m; eexists; (split; [vm_compute; reflexivity|]);
    repeat split; reflexivity.
Qed.

(** ** BudgetStatus *)

(** C2 on a budget whose "Limit" cell is blank: the conversion
    [float(budget_row.get("Limit", 0))] raises [ValueError] outside
    every [try], and [get_budget_status] raises it to its caller,
    whatever the ledger and the budgets that follow. *)
Theorem get_budget_status_raises_on_blank_limit
        (now : PyDate.datetime) (receipts : list LedgerRow)
        (rest : list BudgetRow) :
  get_budget_status now receipts (Scenario.budget_blank_limit :: rest)
  = Raise ValueError.
Proof. reflexivity. Qed.

Module BudgetFacts.



End BudgetFacts.



(** ** Forecast *)

Module ForecastFacts.










End ForecastFacts.




(** ** Dictionaries *)

Module DictFacts.

Section Generic.
Context {K V : Type} (eqb : K -> K -> bool).
Hypothesis eqb_spec : forall a b : K, eqb a b = true <-> a = b.

Lemma eqb_refl (k : K) : eqb k k = true.
Proof. now apply eqb_spec. Qed.

Lemma eqb_neq (a b : K) : a <> b -> eqb a b = false.
Proof.
  intros H. destruct (eqb a b) eqn:E; [|reflexivity].
  apply eqb_spec in E. contradiction.
Qed.

Lemma get_set_same (d : list (K * V)) (k : K) (v : V) :
  Dict.get eqb (Dict.set eqb d k v) k = Some v.
Proof.
  induction d as [|[k' v'] t IH]; simpl.
  - now rewrite eqb_refl.
  - destruct (eqb k' k) eqn:E; simpl; rewrite E; [reflexivity | exact IH].
Qed.

Lemma get_set_other (d : list (K * V)) (k k' : K) (v : V) :
  k <> k' -> Dict.get eqb (Dict.set eqb d k v) k' = Dict.get eqb d k'.
Proof.
  intros Hne. induction d as [|[k0 v0] t IH]; simpl.
  - now rewrite (eqb_neq k k' Hne).
  - destruct (eqb k0 k) eqn:E; simpl.
    + apply eqb_spec in E. subst k0. now rewrite (eqb_neq k k' Hne).
    + now rewrite IH.
Qed.

Lemma get_default_set_same (dflt : V) (d : list (K * V)) (k : K) (v : V) :
  Dict.get_default eqb dflt (Dict.set eqb d k v) k = v.
Proof. unfold Dict.get_default. now rewrite get_set_same. Qed.

Lemma get_default_set_other (dflt : V) (d : list (K * V)) (k k' : K) (v : V) :
  k <> k' ->
  Dict.get_default eqb dflt (Dict.set eqb d k v) k'
  = Dict.get_default eqb dflt d k'.
Proof. intros H. unfold Dict.get_default. now rewrite get_set_other. Qed.

Lemma get_In (d : list (K * V)) (k : K) (v : V) :
  Dict.get eqb d k = Some v -> In (k, v) d.
Proof.
  induction d as [|[k' v'] t IH]; simpl; [discriminate|].
  destruct (eqb k' k) eqn:E.
  - apply eqb_spec in E. subst k'. intros H. injection H as ->. now left.
  - intros H. right. now apply IH.
Qed.

Lemma get_None_not_In (d : list (K * V)) (k : K) :
  Dict.get eqb d k = None -> ~ In k (Dict.keys d).
Proof.
  induction d as [|[k' v'] t IH]; simpl; [tauto|].
  destruct (eqb k' k) eqn:E; [discriminate|].
  intros H [Hk | Hin]; [|now apply IH].
  subst k'. rewrite eqb_refl in E. discriminate.
Qed.


(** Writing a key keeps the keys, or adds the new key last. *)
Lemma keys_set (d : list (K * V)) (k : K) (v : V) :
  Dict.keys (Dict.set eqb d k v)
  = if Dict.mem eqb d k then Dict.keys d else (Dict.keys d ++ [k])%list.
Proof.
  unfold Dict.mem. induction d as [|[k' v'] t IH]; simpl; [reflexivity|].
  destruct (eqb k' k) eqn:E; simpl; [reflexivity|].
  rewrite IH. now destruct (Dict.get eqb t k).
Qed.

Lemma NoDup_keys_set (d : list (K * V)) (k : K) (v : V) :
  NoDup (Dict.keys d) -> NoDup (Dict.keys (Dict.set eqb d k v)).
Proof.
  intros Hnd. rewrite keys_set. unfold Dict.mem.
  destruct (Dict.get eqb d k) eqn:E; [exact Hnd|].
  apply get_None_not_In in E.
  apply NoDup_rev in Hnd. rewrite <- (rev_involutive (_ ++ _)%list).
  apply NoDup_rev. rewrite rev_app_distr. simpl. constructor; [|exact Hnd].
  now rewrite <- in_rev.
Qed.

Lemma in_set (d : list (K * V)) (k k' : K) (v v' : V) :
  In (k', v') (Dict.set eqb d k v) -> (k' = k /\ v' = v) \/ In (k', v') d.
Proof.
  induction d as [|[k0 v0] t IH]; simpl.
  - intros [H | []]. injection H as <- <-. now left.
  - destruct (eqb k0 k) eqn:E; simpl.
    + apply eqb_spec in E. subst k0.
      intros [H | H]; [injection H as <- <-; now left | now right; right].
    + intros [H | H]; [now right; left|].
      destruct (IH H) as [? | ?]; [now left | now right; right].
Qed.



End Generic.


(** Sums *)

Local Open Scope Q_scope.

Lemma Qsum_app (a b : list Q) :
  PyNum.Qsum (a ++ b) == PyNum.Qsum a + PyNum.Qsum b.
Proof.
  induction a as [|x a IH]; simpl; [ring | rewrite IH; ring].
Qed.




Section Sums.
Context {K V : Type} (eqb : K -> K -> bool).
Hypothesis eqb_spec : forall a b : K, eqb a b = true <-> a = b.

(** Writing [v] under [k] changes the sum of a measure [f] of the
    values by [f v] less the measure of what [k] held before. *)
Lemma Qsum_set (f : V -> Q) (dflt : V) (d : list (K * V)) (k : K) (v : V) :
  f dflt == 0 ->
  NoDup (Dict.keys d) ->
  PyNum.Qsum (map (fun kv => f (snd kv)) (Dict.set eqb d k v))
  == PyNum.Qsum (map (fun kv => f (snd kv)) d)
     - f (Dict.get_default eqb dflt d k) + f v.
Proof.
  intros Hd Hnd. unfold Dict.get_default.
  induction d as [|[k' v'] t IH]; simpl.
  - rewrite Hd. ring.
  - inversion Hnd as [|? ? Hnot Hnd']; subst.
    destruct (eqb k' k) eqn:E; simpl.
    + ring.
    + rewrite (IH Hnd'). ring.
Qed.

End Sums.

End DictFacts.

(** ** CategoryAnalysis *)

Module AnalysisFacts.

Local Open Scope Q_scope.






End AnalysisFacts.



(** ** Trends *)

Module TrendFacts.

Local Open Scope Q_scope.

Lemma insert_by_key_perm {V : Type} (x : string * V) (l : list (string * V)) :
  Permutation (insert_by_key x l) (x :: l).
Proof.
  induction l as [|y l IH]; simpl; [reflexivity|].
  destruct (String.leb (fst x) (fst y)); [reflexivity|].
  rewrite IH. apply perm_swap.
Qed.

Lemma sorted_items_perm {V : Type} (d : list (string * V)) :
  Permutation (sorted_items d) d.
Proof.
  induction d as [|x d IH]; simpl; [reflexivity|].
  rewrite insert_by_key_perm. now constructor.
Qed.




(** [d[k] += a] *)
Lemma add_to_get (d : list (string * Q)) (k k' : string) (a : Q) :
  Dict.get_default String.eqb 0 (add_to d k a) k'
  == Dict.get_default String.eqb 0 d k'
     + (if String.eqb k k' then a else 0).
Proof.
  unfold add_to. destruct (String.eqb k k') eqn:E.
  - apply String.eqb_eq in E. subst k'.
    rewrite DictFacts.get_default_set_same; [reflexivity|].
    apply String.eqb_eq.
  - rewrite DictFacts.get_default_set_other; [ring | apply String.eqb_eq |].
    intros ->. rewrite String.eqb_refl in E. discriminate.
Qed.

Lemma add_to_NoDup (d : list (string * Q)) (k : string) (a : Q) :
  NoDup (Dict.keys d) -> NoDup (Dict.keys (add_to d k a)).
Proof. apply DictFacts.NoDup_keys_set. apply String.eqb_eq. Qed.

Lemma add_to_positive (d : list (string * Q)) (k : string) (a : Q) :
  0 < a -> positive d -> positive (add_to d k a).
Proof.
  intros Ha Hd k' v' Hin. unfold add_to in Hin.
  apply (DictFacts.in_set String.eqb String.eqb_eq) in Hin.
  destruct Hin as [[_ ->] | Hin]; [|now apply (Hd k')].
  unfold Dict.get_default.
  destruct (Dict.get String.eqb d k) as [v|] eqn:E.
  - apply (DictFacts.get_In String.eqb String.eqb_eq) in E.
    apply Hd in E.
    apply Qlt_le_trans with (y := 0 + a); [now rewrite Qplus_0_l|].
    apply Qplus_le_l. now apply Qlt_le_weak.
  - now rewrite Qplus_0_l.
Qed.

Lemma mem_keys {V : Type} (d : list (string * V)) (c : string) :
  existsb (String.eqb c) (Dict.keys d) = Dict.mem String.eqb d c.
Proof.
  unfold Dict.mem. induction d as [|[k v] d IH]; simpl; [reflexivity|].
  rewrite (String.eqb_sym c k). destruct (String.eqb k c); [reflexivity|].
  exact IH.
Qed.

Lemma trend_inv_init : trend_inv (mkAcc [] [] []).
Proof.
  constructor; simpl; try constructor; try tauto; try reflexivity.
  - intros k v [].
Qed.

(** The series a category has so far *)
Lemma series_of_inv (acc : TrendAcc) (c : string) :
  trend_inv acc ->
  NoDup (Dict.keys (Dict.get_default String.eqb [] (category_data acc) c))
  /\ positive (Dict.get_default String.eqb [] (category_data acc) c).
Proof.
  intros H. unfold Dict.get_default.
  destruct (Dict.get String.eqb (category_data acc) c) as [s|] eqn:E.
  - apply (DictFacts.get_In String.eqb String.eqb_eq) in E. split.
    + eapply inv_series_keys; eauto.
    + eapply inv_series_positive; eauto.
  - split; [constructor | intros k v []].
Qed.

Lemma trend_update_inv (acc : TrendAcc) (c k : string) (a : Q) :
  0 < a -> trend_inv acc -> trend_inv (trend_update acc (c, k, a)).
Proof.
  intros Ha H. destruct (series_of_inv acc c H) as [Hsnd Hspos].
  unfold trend_update.
  set (s := Dict.get_default String.eqb [] (category_data acc) c) in *.
  constructor; simpl.
  - apply add_to_NoDup, H.
  - apply DictFacts.NoDup_keys_set; [apply String.eqb_eq | apply H].
  - intros c' s' Hin.
    apply (DictFacts.in_set String.eqb String.eqb_eq) in Hin.
    destruct Hin as [[_ ->] | Hin].
    + now apply add_to_NoDup.
    + eapply inv_series_keys; eauto.
  - rewrite (DictFacts.keys_set String.eqb), (inv_categories acc H).
    unfold Dict.set_add. now rewrite mem_keys.
  - apply add_to_positive; [exact Ha | apply H].
  - intros c' s' Hin.
    apply (DictFacts.in_set String.eqb String.eqb_eq) in Hin.
    destruct Hin as [[_ ->] | Hin].
    + now apply add_to_positive.
    + eapply inv_series_positive; eauto.
  - intros k'. rewrite add_to_get, (inv_sum acc H k').
    rewrite (DictFacts.Qsum_set String.eqb
               (fun s => Dict.get_default String.eqb 0 s k') []
               (category_data acc) c (add_to s k a));
      [|reflexivity | apply H].
    fold s. rewrite add_to_get. ring.
Qed.

Lemma trend_entry_positive (now : PyDate.datetime) (period : string)
      (fs fe : option PyDate.datetime) (r : LedgerRow)
      (c k : string) (a : Q) :
  trend_entry now period fs fe r = Some (c, k, a) -> 0 < a.
Proof.
  unfold trend_entry.
  destruct (before_start fs _); [discriminate|].
  destruct (after_end fe _); [discriminate|].
  destruct (PyNum.is_blank_str _); [discriminate|].
  destruct (PyNum.py_float _) as [amount|e]; [|discriminate].
  destruct (Qle_bool amount 0) eqn:E; [discriminate|].
  intros H. injection H as _ _ <-.
  apply Qnot_le_lt. intros Hle. apply Qle_bool_iff in Hle. congruence.
Qed.

Lemma trend_acc_inv (now : PyDate.datetime) (period : string)
      (fs fe : option PyDate.datetime) (receipts : list LedgerRow) :
  trend_inv (trend_acc now period fs fe receipts).
Proof.
  unfold trend_acc.
  assert (G : forall acc, trend_inv acc ->
                          trend_inv (fold_left (trend_step now period fs fe)
                                               receipts acc)).
  { induction receipts as [|r l IH]; intros acc H; simpl; [exact H|].
    apply IH. unfold trend_step.
    destruct (trend_entry now period fs fe r) as [[[c k] a]|] eqn:E;
      [|exact H].
    apply trend_update_inv; [|exact H].
    eapply trend_entry_positive; eauto. }
  apply G, trend_inv_init.
Qed.

(** [get_trends] without the early return, which returns what the loop
    would have produced. *)
Lemma get_trends_unfold (now : PyDate.datetime) (receipts : list LedgerRow)
      (period : string) (date_filter start_date end_date : option string) :
  get_trends now receipts period date_filter start_date end_date
  = let acc := trend_acc now period
                 (fst (date_range now date_filter start_date end_date))
                 (snd (date_range now date_filter start_date end_date))
                 receipts in
    mkTrend period
            (categories_set acc)
            (map (fun category =>
                    (category,
                     time_series (Some category)
                       (Dict.get_default String.eqb []
                                         (category_data acc) category)))
                 (categories_set acc))
            (time_series None (total_by_period acc)).
Proof.
  unfold get_trends. destruct receipts as [|r l]; [reflexivity|].
  now destruct (date_range now date_filter start_date end_date).
Qed.


End TrendFacts.


(** ** Rows whose date cannot be parsed *)

Module UnparsedFacts.

Local Open Scope Q_scope.








Lemma Qsum_insert {A : Type} (f : A -> Q) (l1 l2 : list A) (x : A) :
  PyNum.Qsum (map f (l1 ++ x :: l2))
  == PyNum.Qsum (map f (l1 ++ l2)) + f x.
Proof.
  rewrite !map_app, !DictFacts.Qsum_app. simpl. ring.
Qed.


Section Row.
Variable now : PyDate.datetime.
Variable r : LedgerRow.
Variable a : Q.
Hypothesis Hdate : parse_date (row_Date r) = None.
Hypothesis Hblank : PyNum.is_blank_str (row_Total_Price r) = false.
Hypothesis Hfloat : PyNum.py_float (row_Total_Price r) = Ok a.
Hypothesis Hpos : 0 < a.






End Row.

End UnparsedFacts.




(* ===================================================================== *)
(** * Further properties *)
(* ===================================================================== *)

(** ** CategoryNormalizer: what matching by normal form gives *)

(** X1.  Two category labels match after normalization when, trimmed
    and lower-cased, one is the other followed by "s" (the shorter one
    ending neither in "s" nor in "ie"), or one ends in "ies" where the
    other ends in "y": case, surrounding whitespace and these plural
    endings do not separate a receipt's category from a budget's. *)
Theorem normalize_category_plural_matches_singular (c c' w : string) :
  (PyStr.strip (PyStr.lower c) = w ++ "s"
   /\ PyStr.strip (PyStr.lower c') = w
   /\ PyStr.endswith w "s" = false
   /\ PyStr.endswith w "ie" = false)
  \/ (PyStr.strip (PyStr.lower c) = w ++ "ies"
      /\ PyStr.strip (PyStr.lower c') = w ++ "y") ->
  _normalize_category c = _normalize_category c'.
Proof.
  intros [[Hc [Hc' [Hs Hie]]] | [Hc Hc']].
  - rewrite (NormalizeFacts.normalize_s c w Hc Hie Hs).
    rewrite NormalizeFacts.normalize_other; rewrite Hc'; auto.
    now apply NormalizeFacts.not_ies_of_not_s.
  - rewrite (NormalizeFacts.normalize_ies c w Hc).
    assert (Hy : PyStr.endswith (w ++ "y") "s" = false).
    { destruct (PyStr.endswith (w ++ "y") "s") eqn:E; [|reflexivity].
      apply (NormalizeFacts.endswith_last w "" "y" "s") in E. discriminate. }
    rewrite NormalizeFacts.normalize_other; rewrite Hc'; auto.
    now apply NormalizeFacts.not_ies_of_not_s.
Qed.

Lemma normalize_category_plural_witness :
  _normalize_category "  Groceries" = _normalize_category "GROCERY "
  /\ _normalize_category "Snacks" = _normalize_category "snack".
Proof.
  split.
  - apply (normalize_category_plural_matches_singular
             "  Groceries" "GROCERY " "grocer").
    right. split; reflexivity.
  - apply (normalize_category_plural_matches_singular
             "Snacks" "snack" "snack").
    left. repeat split; reflexivity.
Defined.

(** X2.  A normal form is in lower case, and it never ends in a single
    "s": if it ends in "s" at all, it ends in "ss". *)
Theorem normalize_category_form (c : string) :
  PyStr.lower (_normalize_category c) = _normalize_category c
  /\ (PyStr.endswith (_normalize_category c) "s" = true ->
      PyStr.endswith (_normalize_category c) "ss" = true).
Proof.
  pose proof (NormalizeFacts.lower_strip_lower c) as Hlow.
  unfold _normalize_category.
  set (n := PyStr.strip (PyStr.lower c)) in *.
  destruct (PyStr.endswith n "ies") eqn:Hies.
  - apply PyStrFacts.endswith_true in Hies. destruct Hies as [p Hp].
    pose proof (PyStrFacts.drop_last_app p "ies") as D. simpl in D.
    rewrite Hp, D. split.
    + rewrite PyStrFacts.lower_app. f_equal.
      apply (NormalizeFacts.lower_prefix p "ies"); [reflexivity|].
      now rewrite <- Hp.
    + intros E. apply (NormalizeFacts.endswith_last p "" "y" "s") in E.
      discriminate.
  - destruct (PyStr.endswith n "s") eqn:Hs; simpl.
    + destruct (PyStr.endswith n "ss") eqn:Hss; simpl.
      * split; [exact Hlow | intros _; exact Hss].
      * apply PyStrFacts.endswith_true in Hs. destruct Hs as [p Hp].
        pose proof (PyStrFacts.drop_last_app p "s") as D. simpl in D.
        rewrite Hp in *. rewrite D. split.
        -- now apply (NormalizeFacts.lower_prefix p "s").
        -- intros E. apply NormalizeFacts.not_s_of_not_ss in Hss. congruence.
    + split; [exact Hlow | intros E; congruence].
Qed.

Lemma normalize_category_form_witness :
  PyStr.endswith (_normalize_category " Glass ") "s" = true
  /\ PyStr.endswith (_normalize_category " Glass ") "ss" = true.
Proof.
  split; [reflexivity|].
  apply (proj2 (normalize_category_form " Glass ")). reflexivity.
Defined.

(** ** Budget spending and status *)

Module SpendingFacts.

Local Open Scope Q_scope.

Lemma spending_fold (f : LedgerRow -> option Q) (l : list LedgerRow) :
  forall acc,
    fold_left (fun total_spending receipt =>
                 match f receipt with
                 | Some amount => total_spending + amount
                 | None => total_spending
                 end) l acc
    == acc + PyNum.Qsum (map (fun r => match f r with
                                       | Some a => a
                                       | None => 0
                                       end) l).
Proof.
  induction l as [|r l IH]; intros acc; simpl; [ring|].
  rewrite IH. destruct (f r); ring.
Qed.

(** The spending of a budget is the sum of the shares of the rows. *)
Lemma spending_sum (now : PyDate.datetime) (receipts : list LedgerRow)
      (category period period_type : string)
      (start_date end_date : option string) :
  calculate_budget_spending now receipts category period period_type
                            start_date end_date
  == PyNum.Qsum (map (budget_share now category period period_type
                                   start_date end_date) receipts).
Proof.
  unfold calculate_budget_spending, budget_share.
  destruct (budget_range now period period_type start_date end_date)
    as [rs re].
  cbn [fst snd]. rewrite spending_fold. ring.
Qed.

Lemma spending_insert (now : PyDate.datetime) (l1 l2 : list LedgerRow)
      (r : LedgerRow) (category period period_type : string)
      (start_date end_date : option string) :
  calculate_budget_spending now (l1 ++ r :: l2) category period period_type
                            start_date end_date
  == calculate_budget_spending now (l1 ++ l2) category period period_type
                               start_date end_date
     + budget_share now category period period_type start_date end_date r.
Proof.
  rewrite !spending_sum. apply UnparsedFacts.Qsum_insert.
Qed.

End SpendingFacts.



(** X4.  A row whose normalized category is the budget's, whose date
    parses and lies in the budget's window and whose amount converts
    adds that amount to the spending, whatever its sign: a refund
    entered as a negative amount lowers the spending of its budget. *)
Theorem budget_spending_counts_row
        (now : PyDate.datetime) (l1 l2 : list LedgerRow) (r : LedgerRow)
        (category period period_type : string)
        (start_date end_date : option string)
        (d : PyDate.datetime) (a : Q) :
  _normalize_category (PyStr.strip (row_Category r))
  = _normalize_category category ->
  parse_date (row_Date r) = Some d ->
  PyDate.leb (fst (budget_range now period period_type start_date end_date)) d
  = true ->
  PyDate.leb d (snd (budget_range now period period_type start_date end_date))
  = true ->
  PyNum.py_float (row_Total_Price r) = Ok a ->
  (calculate_budget_spending now (l1 ++ r :: l2) category period period_type
                             start_date end_date
   == calculate_budget_spending now (l1 ++ l2) category period period_type
                                start_date end_date
      + a)%Q.
Proof.
  intros Hc Hd Hs He Ha. rewrite SpendingFacts.spending_insert.
  unfold budget_share, budget_entry.
  rewrite Hc, String.eqb_refl, Hd, Hs, He, Ha. reflexivity.
Qed.

Lemma budget_spending_counts_row_witness :
  (calculate_budget_spending Scenario.now_0
     (Scenario.ledger_dining
      ++ [Scenario.saved_row "10-02-2025" "Cafe" "Refund" " Dinings "
                             (- (5 # 1)) (CNum 0)])
     "dining" "monthly" "rolling" None None
   == 25)%Q.
Proof.
  rewrite (budget_spending_counts_row Scenario.now_0 Scenario.ledger_dining []
             (Scenario.saved_row "10-02-2025" "Cafe" "Refund" " Dinings "
                                 (- (5 # 1)) (CNum 0))
             "dining" "monthly" "rolling" None None
             (PyDate.mkdt (PyDate.ymd2ord 2025 2 10) 0) (- (5 # 1)));
    vm_compute; reflexivity.
Defined.

Module StatusFacts.

Local Open Scope Q_scope.


Lemma budget_of_ok (now : PyDate.datetime) (receipts : list LedgerRow)
      (row : BudgetRow) (q : Q) :
  PyNum.py_float (bud_Limit row) = Ok q ->
  exists b, budget_of now receipts row = Ok b.
Proof.
  intros H. unfold budget_of, bind. rewrite H.
  destruct (_calculate_period_info _ _ _ _ _). eexists. reflexivity.
Qed.



(** What the loop has accumulated when it ends *)
Lemma budget_loop_totals (now : PyDate.datetime) (receipts : list LedgerRow)
      (budget_data : list BudgetRow) :
  forall budgets tb ts budgets' tb' ts',
    budget_loop now receipts budget_data budgets tb ts
    = Ok (budgets', tb', ts') ->
    exists new,
      budgets' = (budgets ++ new)%list
      /\ Forall2 (fun row b => budget_of now receipts row = Ok b)
                 budget_data new
      /\ tb' == tb + PyNum.Qsum (map b_limit new)
      /\ ts' == ts + PyNum.Qsum (map b_current_spend new).
Proof.
  induction budget_data as [|row rest IH];
    intros budgets tb ts budgets' tb' ts'.
  - simpl. intros H. injection H as <- <- <-. exists [].
    rewrite app_nil_r. repeat split; [constructor | simpl; ring ..].
  - simpl. unfold bind at 1.
    destruct (budget_of now receipts row) as [b|e] eqn:Hb; [|discriminate].
    intros H. apply IH in H. destruct H as [new [-> [HF [Htb Hts]]]].
    exists (b :: new). rewrite <- app_assoc. simpl.
    repeat split; [now constructor | rewrite Htb; ring | rewrite Hts; ring].
Qed.

Lemma budget_of_fields (now : PyDate.datetime) (receipts : list LedgerRow)
      (row : BudgetRow) (b : Budget) :
  budget_of now receipts row = Ok b ->
  b_id b = bud_ID row
  /\ b_category b = bud_Category row
  /\ PyNum.py_float (bud_Limit row) = Ok (b_limit b)
  /\ b_period b = bud_Period row
  /\ b_period_type b = bud_Period_Type row
  /\ b_is_exceeded b = PyNum.Qltb (b_limit b) (b_current_spend b).
Proof.
  unfold budget_of, bind.
  destruct (PyNum.py_float (bud_Limit row)) as [limit|e]; [|discriminate].
  destruct (_calculate_period_info _ _ _ _ _).
  intros H. injection H as <-. simpl. repeat split.
Qed.

End StatusFacts.


(** X6.  A returned status lists one budget per stored row, in order and
    under the row's id; its total budget is the sum of the limits, its
    total spent the sum of the spendings, its overall percentage their
    ratio times 100 (0 when the total budget is not positive), and a
    budget is marked exceeded exactly when its spending is above its
    limit. *)
Theorem get_budget_status_totals
        (now : PyDate.datetime) (receipts : list LedgerRow)
        (budget_data : list BudgetRow) (status : BudgetStatus) :
  get_budget_status now receipts budget_data = Ok status ->
  map b_id (bs_budgets status) = map bud_ID budget_data
  /\ (bs_total_budget status == PyNum.Qsum (map b_limit (bs_budgets status)))%Q
  /\ (bs_total_spent status
      == PyNum.Qsum (map b_current_spend (bs_budgets status)))%Q
  /\ bs_overall_percentage status
     = percentage_used (bs_total_spent status) (bs_total_budget status)
  /\ Forall (fun b => b_is_exceeded b = true
                      <-> (b_limit b < b_current_spend b)%Q)
            (bs_budgets status).
Proof.
  unfold get_budget_status, bind.
  destruct (budget_loop now receipts budget_data [] 0%Q 0%Q)
    as [[[budgets tb] ts]|e] eqn:Hloop; [|discriminate].
  intros H. injection H as <-. cbn [bs_budgets bs_total_budget bs_total_spent
                                     bs_overall_percentage].
  apply StatusFacts.budget_loop_totals in Hloop.
  destruct Hloop as [new [-> [HF [Htb Hts]]]]. simpl.
  split; [|split; [|split; [|split]]].
  - clear Htb Hts.
    induction HF as [|row b rows bs Hb _ IH]; simpl; [reflexivity|].
    apply StatusFacts.budget_of_fields in Hb. destruct Hb as [-> _].
    now rewrite IH.
  - rewrite Htb. ring.
  - rewrite Hts. ring.
  - reflexivity.
  - clear Htb Hts.
    induction HF as [|row b rows bs Hb _ IH]; constructor; [|exact IH].
    apply StatusFacts.budget_of_fields in Hb.
    destruct Hb as [_ [_ [_ [_ [_ ->]]]]]. apply PyNumFacts.Qltb_lt.
Qed.

Lemma get_budget_status_totals_witness :
  exists status,
    get_budget_status Scenario.now_0 Scenario.ledger_dining
      [Scenario.budget_zero_limit; Scenario.budget_dining_40] = Ok status
    /\ map b_id (bs_budgets status) = ["budget_2"; "budget_3"]
    /\ (bs_total_budget status == 40)%Q.
Proof.
  eexists. split; [vm_compute; reflexivity|].
  destruct (get_budget_status_totals Scenario.now_0 Scenario.ledger_dining
              [Scenario.budget_zero_limit; Scenario.budget_dining_40] _
              eq_refl) as [H1 [H2 _]].
  split; [exact H1 | rewrite H2; vm_compute; reflexivity].
Defined.

(** ** The "Budgets" worksheet *)

Module StoreFacts.

Lemma same_id_eq (b : BudgetRow) (budget_id : string) :
  same_id b budget_id = true -> bud_ID b = budget_id.
Proof.
  unfold same_id. intros H. apply andb_true_iff in H.
  now apply String.eqb_eq.
Qed.


Lemma same_id_other (b : BudgetRow) (id id' : string) :
  bud_ID b = id -> id' <> id -> same_id b id' = false.
Proof.
  intros <- Hne. unfold same_id.
  destruct (String.eqb (bud_ID b) id') eqn:E; [|apply andb_false_r].
  apply String.eqb_eq in E. congruence.
Qed.

Lemma same_id_number (b : BudgetRow) (budget_id : string) :
  stays_text budget_id = false -> same_id b budget_id = false.
Proof.
  intros Hn. destruct (same_id b budget_id) eqn:E; [|reflexivity].
  pose proof (same_id_eq _ _ E) as <-.
  unfold same_id in E. now rewrite Hn in E.
Qed.




Lemma write_absent (row : BudgetRow) (sheet : list BudgetRow)
      (budget_id : string) :
  find_budget sheet budget_id = None ->
  write_budget budget_id row sheet = (sheet ++ [row])%list.
Proof.
  unfold find_budget. induction sheet as [|b rest IH]; simpl; [reflexivity|].
  destruct (same_id b budget_id); [discriminate|].
  intros H. now rewrite IH.
Qed.

Lemma delete_absent (sheet : list BudgetRow) (budget_id : string) :
  find_budget sheet budget_id = None ->
  delete_budget sheet budget_id = (sheet, false).
Proof.
  unfold find_budget. induction sheet as [|b rest IH]; simpl; [reflexivity|].
  destruct (same_id b budget_id); [discriminate|].
  intros H. now rewrite IH.
Qed.

Lemma find_number (sheet : list BudgetRow) (budget_id : string) :
  stays_text budget_id = false -> find_budget sheet budget_id = None.
Proof.
  intros Hn. unfold find_budget.
  induction sheet as [|b rest IH]; simpl; [reflexivity|].
  now rewrite same_id_number.
Qed.




End StoreFacts.





(** X9.  [delete_budget] returns [True] exactly when a row carries the
    id; it then removes one row, and otherwise none; the rows of all
    other ids are found afterwards as before. *)
Theorem delete_budget_effect (sheet : list BudgetRow) (budget_id : string) :
  snd (delete_budget sheet budget_id)
  = match find_budget sheet budget_id with
    | Some _ => true
    | None => false
    end
  /\ List.length sheet
     = (List.length (fst (delete_budget sheet budget_id))
        + (if snd (delete_budget sheet budget_id) then 1 else 0))%nat
  /\ (snd (delete_budget sheet budget_id) = false ->
      fst (delete_budget sheet budget_id) = sheet)
  /\ (forall id', id' <> budget_id ->
                  find_budget (fst (delete_budget sheet budget_id)) id'
                  = find_budget sheet id').
Proof.
  unfold find_budget. induction sheet as [|b rest IH]; simpl.
  - repeat split; reflexivity.
  - destruct (same_id b budget_id) eqn:E; simpl.
    + repeat split; [lia | discriminate |].
      intros id' Hne.
      now rewrite (StoreFacts.same_id_other b budget_id id')
        by (auto using StoreFacts.same_id_eq).
    + destruct (delete_budget rest budget_id) as [rest' found].
      simpl in *. destruct IH as [H1 [H2 [H3 H4]]].
      repeat split; [exact H1 | lia | |].
      * intros Hf. now rewrite H3.
      * intros id' Hne. now rewrite H4.
Qed.



(** X11.  A budget id that spells a number is never found on the
    worksheet, because its cell is read back as a number: every
    [save_budget] under it appends one more row, and [delete_budget]
    of it returns [False] and removes nothing. *)
Theorem numeric_budget_id_never_matches
        (fresh_id : string) (sheet : list BudgetRow) (budget : Budget)
        (budget_id : string) :
  budget_id = (if PyStr.is_empty (b_id budget) then fresh_id
               else b_id budget) ->
  stays_text budget_id = false ->
  save_budget fresh_id sheet budget
  = (sheet ++ [budget_row budget_id budget])%list
  /\ delete_budget (save_budget fresh_id sheet budget) budget_id
     = (save_budget fresh_id sheet budget, false).
Proof.
  intros Hid Hn. unfold save_budget. rewrite <- Hid. split.
  - apply StoreFacts.write_absent. now apply StoreFacts.find_number.
  - apply StoreFacts.delete_absent. now apply StoreFacts.find_number.
Qed.

Lemma numeric_budget_id_never_matches_witness :
  save_budget "budget_1739188800.0"
    [mkBudgetRow "2025" "Travel" (CNum 300) "monthly" "rolling" "" ""]
    (mkBudget "2025" "Travel" 350 "monthly" "rolling" None None
              0 0 false "" "")
  = [mkBudgetRow "2025" "Travel" (CNum 300) "monthly" "rolling" "" "";
     mkBudgetRow "2025" "Travel" (CNum 350) "monthly" "rolling" "" ""].
Proof.
  apply (numeric_budget_id_never_matches "budget_1739188800.0"
           [mkBudgetRow "2025" "Travel" (CNum 300) "monthly" "rolling" "" ""]
           (mkBudget "2025" "Travel" 350 "monthly" "rolling" None None
                     0 0 false "" "")
           "2025" eq_refl eq_refl).
Defined.



(** ** Goal progress *)

Module GoalFacts.

Local Open Scope Q_scope.

Lemma transaction_total_sum (txns : list TxnRow) :
  Forall (fun t => exists a, PyNum.py_float (txn_Amount t) = Ok a) txns ->
  forall acc,
  exists total,
    transaction_total txns acc = Ok total
    /\ total == acc + PyNum.Qsum (map txn_share txns).
Proof.
  induction 1 as [|t rest [a Ha] _ IH]; intros acc; simpl.
  - exists acc. split; [reflexivity | ring].
  - unfold bind. rewrite Ha.
    match goal with
    | |- exists total, transaction_total rest ?acc' = _ /\ _ =>
        destruct (IH acc') as [total [Ht Hs]]
    end.
    exists total. split; [exact Ht|]. rewrite Hs.
    unfold txn_share, signed_amount. rewrite Ha.
    destruct (String.eqb (txn_Type t) "deposit"); [ring|].
    destruct (String.eqb (txn_Type t) "withdrawal"); ring.
Qed.


End GoalFacts.





(** X30.  The transactions of an auto-tracked spending-limit goal do not
    enter its progress: as long as their amounts convert, the progress
    is the one computed without any transaction.  It is 0, not the
    stored amount, when the goal has no category or its target date is
    not written yyyy-mm-dd. *)
Theorem spending_limit_ignores_transactions
        (now : PyDate.datetime) (receipts : list LedgerRow)
        (txns : list TxnRow) (goal : Goal) :
  goal_auto_track goal = true ->
  goal_type goal = "spending_limit" ->
  Forall (fun t => exists a, PyNum.py_float (txn_Amount t) = Ok a)
         (get_goal_transactions txns (opt_str (goal_id goal))) ->
  calculate_goal_progress now receipts txns goal
  = calculate_goal_progress now receipts [] goal
  /\ (truthy (goal_category goal) = false
      \/ PyDate.strptime_Ymd (goal_target_date goal) = None ->
      calculate_goal_progress now receipts txns goal = 0%Q).
Proof.
  intros Ha Ht HF. unfold calculate_goal_progress. rewrite Ha, Ht.
  cbn [negb get_goal_transactions filter transaction_total].
  destruct (GoalFacts.transaction_total_sum _ HF 0%Q) as [total [-> _]].
  simpl String.eqb. cbv iota. split; [reflexivity|].
  intros [H | H]; rewrite H; [reflexivity|].
  now destruct (truthy (goal_category goal)).
Qed.

Lemma spending_limit_ignores_transactions_witness :
  calculate_goal_progress Scenario.now_0 Scenario.ledger_dining
    [mkTxn "goal_7" (CNum 100) "deposit"]
    (mkGoal (Some "goal_7") "Eat out less" 50 0 "2025-02-28" (Some "Dining")
            "spending_limit" true)
  = calculate_goal_progress Scenario.now_0 Scenario.ledger_dining []
      (mkGoal (Some "goal_7") "Eat out less" 50 0 "2025-02-28" (Some "Dining")
              "spending_limit" true).
Proof.
  apply (spending_limit_ignores_transactions Scenario.now_0
           Scenario.ledger_dining [mkTxn "goal_7" (CNum 100) "deposit"]
           (mkGoal (Some "goal_7") "Eat out less" 50 0 "2025-02-28"
                   (Some "Dining") "spending_limit" true) eq_refl eq_refl).
  repeat constructor. eexists. reflexivity.
Defined.

(** ** Dates and budget windows *)

Module WindowFacts.

Local Open Scope Z_scope.

Lemma leb_spec (a b : PyDate.datetime) :
  PyDate.leb a b = true
  <-> PyDate.ordinal a < PyDate.ordinal b
      \/ (PyDate.ordinal a = PyDate.ordinal b
          /\ PyDate.tod_us a <= PyDate.tod_us b).
Proof.
  unfold PyDate.leb, PyDate.ltb.
  rewrite negb_true_iff, orb_false_iff, andb_false_iff.
  rewrite !Z.ltb_ge, Z.eqb_neq. lia.
Qed.

Lemma field_d_short (f : list ascii) (z : Z) :
  PyDate.field_d f = Some z -> PyDate.field_Y f = None.
Proof.
  destruct f as [|a [|b [|c [|d [|e f]]]]]; simpl; try reflexivity;
    discriminate.
Qed.

Lemma make_date_fields (y m d : option Z) (dt : PyDate.datetime) :
  PyDate.make_date y m d = Some dt ->
  exists y' m' d', y = Some y' /\ m = Some m' /\ d = Some d'.
Proof.
  destruct y as [y'|], m as [m'|], d as [d'|]; simpl; try discriminate.
  intros _. now exists y', m', d'.
Qed.

End WindowFacts.

(** X15.  No string fits both date formats: whenever ["%d-%m-%Y"] reads
    a date, ["%Y-%m-%d"] fails, so the order in which the code tries
    the two formats never changes the date it gets. *)
Theorem date_formats_exclusive (s : string) (d : PyDate.datetime) :
  PyDate.strptime_dmY s = Some d -> PyDate.strptime_Ymd s = None.
Proof.
  unfold PyDate.strptime_dmY, PyDate.strptime_Ymd.
  destruct (PyDate.split_on "-" (PyStr.chars s)) as [|a [|b [|c [|? ?]]]];
    try reflexivity.
  intros H. apply WindowFacts.make_date_fields in H.
  destruct H as [y' [m' [d' [_ [_ Hd]]]]].
  now rewrite (WindowFacts.field_d_short a d' Hd).
Qed.

Lemma date_formats_exclusive_witness :
  PyDate.strptime_Ymd "09-02-2025" = None.
Proof.
  apply (date_formats_exclusive "09-02-2025"
           (PyDate.mkdt (PyDate.ymd2ord 2025 2 9) 0)).
  reflexivity.
Defined.

(** X16.  The window of a "calendar_week" budget ends at the time of day
    of the call, one second earlier, on the Monday after the current
    week: a row dated that Monday is inside the window as soon as the
    call is made one second after midnight, so the window then covers
    eight dates, Monday to the next Monday. *)
Theorem calendar_week_window
        (now d : PyDate.datetime) (period : string)
        (start_date end_date : option string) :
  well_formed now ->
  PyDate.tod_us d = 0%Z ->
  (PyDate.leb (fst (budget_range now period "calendar_week"
                                 start_date end_date)) d
   && PyDate.leb d (snd (budget_range now period "calendar_week"
                                      start_date end_date)) = true
   <-> (PyDate.ordinal now - PyDate.weekday now <= PyDate.ordinal d
        <= PyDate.ordinal now - PyDate.weekday now
           + (if (1000000 <=? PyDate.tod_us now)%Z then 7 else 6))%Z)%bool.
Proof.
  unfold well_formed, PyDate.day_us. intros Hwf Hd.
  unfold budget_range. simpl String.eqb. cbn [fst snd].
  rewrite andb_true_iff, !WindowFacts.leb_spec.
  unfold PyDate.midnight, PyDate.minus_days, PyDate.add, PyDate.day_us.
  cbn [PyDate.ordinal PyDate.tod_us]. rewrite Hd.
  set (w := PyDate.weekday now). set (o := PyDate.ordinal now).
  set (t := PyDate.tod_us now) in *.
  replace (t + 0 * 1000000)%Z with t by lia.
  replace (t / (86400 * 1000000))%Z with 0%Z
    by (symmetry; apply Z.div_small; lia).
  replace (t mod (86400 * 1000000))%Z with t
    by (symmetry; apply Z.mod_small; lia).
  destruct (Z.leb_spec 1000000 t) as [Hge | Hlt].
  - replace ((t + (23 * 3600 + 59 * 60 + 59) * 1000000) / (86400 * 1000000))%Z
      with 1%Z
      by (apply (Z.div_unique _ _ 1 (t - 1000000)); lia).
    replace ((t + (23 * 3600 + 59 * 60 + 59) * 1000000)
             mod (86400 * 1000000))%Z with (t - 1000000)%Z
      by (apply (Z.mod_unique _ _ 1 (t - 1000000)); lia).
    lia.
  - replace ((t + (23 * 3600 + 59 * 60 + 59) * 1000000) / (86400 * 1000000))%Z
      with 0%Z by (symmetry; apply Z.div_small; lia).
    replace ((t + (23 * 3600 + 59 * 60 + 59) * 1000000)
             mod (86400 * 1000000))%Z with (t + 86399000000)%Z
      by (symmetry; apply Z.mod_small; lia).
    lia.
Qed.

Lemma calendar_week_window_witness :
  (PyDate.leb (fst (budget_range Scenario.now_0 "weekly" "calendar_week"
                                 None None))
              (PyDate.mkdt (PyDate.ymd2ord 2025 2 17) 0)
   && PyDate.leb (PyDate.mkdt (PyDate.ymd2ord 2025 2 17) 0)
                 (snd (budget_range Scenario.now_0 "weekly" "calendar_week"
                                    None None)))%bool
  = true.
Proof.
  apply (calendar_week_window Scenario.now_0
           (PyDate.mkdt (PyDate.ymd2ord 2025 2 17) 0) "weekly" None None).
  - vm_compute. split; congruence.
  - reflexivity.
  - vm_compute. split; congruence.
Defined.

(** X17.  From January to November the window of a "calendar_month"
    budget starts on the first of the month and ends one second before
    the time of day of the call on the first of the next month: a row
    dated the first of the next month is inside the window as soon as
    the call is made one second after midnight. *)
Theorem calendar_month_window
        (now d : PyDate.datetime) (period : string)
        (start_date end_date : option string) :
  well_formed now ->
  PyDate.tod_us d = 0%Z ->
  PyDate.month now <> 12%Z ->
  (PyDate.leb (fst (budget_range now period "calendar_month"
                                 start_date end_date)) d
   && PyDate.leb d (snd (budget_range now period "calendar_month"
                                      start_date end_date)) = true
   <-> (PyDate.ymd2ord (PyDate.year now) (PyDate.month now) 1
        <= PyDate.ordinal d
        <= PyDate.ymd2ord (PyDate.year now) (PyDate.month now + 1) 1
           - (if (1000000 <=? PyDate.tod_us now)%Z then 0 else 1))%Z)%bool.
Proof.
  unfold well_formed, PyDate.day_us. intros Hwf Hd Hm.
  unfold budget_range. simpl String.eqb. cbn [fst snd].
  apply Z.eqb_neq in Hm. rewrite Hm.
  rewrite andb_true_iff, !WindowFacts.leb_spec.
  unfold PyDate.midnight, PyDate.replace_day1, PyDate.replace_ymd,
    PyDate.add, PyDate.day_us.
  cbn [PyDate.ordinal PyDate.tod_us]. rewrite Hd.
  set (first := PyDate.ymd2ord (PyDate.year now) (PyDate.month now) 1).
  set (next := PyDate.ymd2ord (PyDate.year now) (PyDate.month now + 1) 1).
  set (t := PyDate.tod_us now) in *.
  destruct (Z.leb_spec 1000000 t) as [Hge | Hlt].
  - replace ((t + -1 * 1000000) / (86400 * 1000000))%Z with 0%Z
      by (symmetry; apply Z.div_small; lia).
    replace ((t + -1 * 1000000) mod (86400 * 1000000))%Z
      with (t - 1000000)%Z by (symmetry; apply Z.mod_small; lia).
    lia.
  - replace ((t + -1 * 1000000) / (86400 * 1000000))%Z with (-1)%Z
      by (apply (Z.div_unique _ _ (-1) (t + 86399000000)); lia).
    replace ((t + -1 * 1000000) mod (86400 * 1000000))%Z
      with (t + 86399000000)%Z
      by (apply (Z.mod_unique _ _ (-1) (t + 86399000000)); lia).
    lia.
Qed.

Lemma calendar_month_window_witness :
  (PyDate.leb (fst (budget_range Scenario.now_0 "monthly" "calendar_month"
                                 None None))
              (PyDate.mkdt (PyDate.ymd2ord 2025 3 1) 0)
   && PyDate.leb (PyDate.mkdt (PyDate.ymd2ord 2025 3 1) 0)
                 (snd (budget_range Scenario.now_0 "monthly" "calendar_month"
                                    None None)))%bool
  = true.
Proof.
  apply (calendar_month_window Scenario.now_0
           (PyDate.mkdt (PyDate.ymd2ord 2025 3 1) 0) "monthly" None None).
  - vm_compute. split; congruence.
  - reflexivity.
  - vm_compute. congruence.
  - vm_compute. split; congruence.
Defined.

(** X18.  The "last_month" filter of [get_trends] and
    [get_category_analysis] starts at the time of day of the call on
    the first day of the previous month: unless the call is made at
    midnight sharp, a row dated the first of the previous month is
    filtered out, and the filter keeps the dates from the second to the
    last day of that month. *)
Theorem last_month_filter
        (now d : PyDate.datetime) (start_date end_date : option string) :
  well_formed now ->
  PyDate.tod_us d = 0%Z ->
  let last_day :=
    (PyDate.ymd2ord (PyDate.year now) (PyDate.month now) 1 - 1)%Z in
  let first_day :=
    PyDate.ordinal (PyDate.replace_day1 (PyDate.mkdt last_day 0)) in
  before_start (fst (date_range now (Some "last_month") start_date end_date))
               d = false
  /\ after_end (snd (date_range now (Some "last_month") start_date end_date))
               d = false
  <-> (first_day + (if (0 <? PyDate.tod_us now)%Z then 1 else 0)
       <= PyDate.ordinal d <= last_day)%Z.
Proof.
  unfold well_formed, PyDate.day_us. intros Hwf Hd. cbv zeta.
  unfold date_range, filter_is. simpl String.eqb. cbn [fst snd].
  unfold before_start, after_end, PyDate.ltb.
  rewrite !orb_false_iff, !andb_false_iff, !Z.ltb_ge, !Z.eqb_neq.
  unfold PyDate.replace_day1, PyDate.minus_days, PyDate.add, PyDate.day_us,
    PyDate.year, PyDate.month.
  cbn [PyDate.ordinal PyDate.tod_us]. rewrite Hd.
  set (t := PyDate.tod_us now) in *.
  replace (t + 0 * 1000000)%Z with t by lia.
  replace (t / (86400 * 1000000))%Z with 0%Z
    by (symmetry; apply Z.div_small; lia).
  replace (t mod (86400 * 1000000))%Z with t
    by (symmetry; apply Z.mod_small; lia).
  set (first := PyDate.ymd2ord (fst (fst (PyDate.ord2ymd (PyDate.ordinal now))))
                               (snd (fst (PyDate.ord2ymd (PyDate.ordinal now))))
                               1).
  replace (first + - (1) + 0)%Z with (first - 1)%Z by lia.
  set (prev := PyDate.ymd2ord _ _ 1).
  destruct (Z.ltb_spec 0 t); lia.
Qed.

Lemma last_month_filter_witness :
  before_start (fst (date_range Scenario.now_0 (Some "last_month") None None))
               (PyDate.mkdt (PyDate.ymd2ord 2025 1 1) 0) = false
  /\ after_end (snd (date_range Scenario.now_0 (Some "last_month") None None))
               (PyDate.mkdt (PyDate.ymd2ord 2025 1 1) 0) = false
  <-> (PyDate.ymd2ord 2025 1 1 + 1 <= PyDate.ymd2ord 2025 1 1
       <= PyDate.ymd2ord 2025 1 31)%Z.
Proof.
  apply (last_month_filter Scenario.now_0
           (PyDate.mkdt (PyDate.ymd2ord 2025 1 1) 0) None None).
  - vm_compute. split; congruence.
  - reflexivity.
Defined.

(** X27.  The window of a "custom" budget whose two dates are written
    yyyy-mm-dd covers the dates from the start date to the end date,
    both included. *)
Theorem custom_window
        (now d s e : PyDate.datetime) (period sd ed : string) :
  PyDate.strptime_Ymd sd = Some s ->
  PyDate.strptime_Ymd ed = Some e ->
  PyDate.tod_us d = 0%Z ->
  (PyDate.leb (fst (budget_range now period "custom" (Some sd) (Some ed))) d
   && PyDate.leb d (snd (budget_range now period "custom" (Some sd) (Some ed)))
   = true
   <-> (PyDate.ordinal s <= PyDate.ordinal d <= PyDate.ordinal e)%Z)%bool.
Proof.
  intros Hs He Hd.
  assert (Ht : forall x y, PyDate.strptime_Ymd x = Some y ->
                           truthy (Some x) = true /\ PyDate.tod_us y = 0%Z).
  { intros x y H. split.
    - destruct x; [discriminate H | reflexivity].
    - unfold PyDate.strptime_Ymd in H.
      destruct (PyDate.split_on "-" (PyStr.chars x)) as [|a [|b [|c [|? ?]]]];
        try discriminate.
      unfold PyDate.make_date in H.
      destruct (PyDate.field_Y a); [|discriminate].
      destruct (PyDate.field_m b); [|discriminate].
      destruct (PyDate.field_d c); [|discriminate].
      destruct (_ && _)%bool; [|discriminate].
      now injection H as <-. }
  destruct (Ht sd s Hs) as [Hts Hs0]. destruct (Ht ed e He) as [Hte He0].
  unfold budget_range. simpl String.eqb. rewrite Hts, Hte.
  cbn [andb opt_str]. rewrite Hs, He. cbn [fst snd].
  rewrite andb_true_iff, !WindowFacts.leb_spec.
  unfold PyDate.end_of_day, PyDate.microsecond.
  cbn [PyDate.ordinal PyDate.tod_us]. rewrite Hd, Hs0, He0.
  change (0 mod 1000000)%Z with 0%Z. lia.
Qed.

Lemma custom_window_witness :
  (PyDate.leb (fst (budget_range Scenario.now_0 "monthly" "custom"
                                 (Some "2025-01-01") (Some "2025-01-31")))
              (PyDate.mkdt (PyDate.ymd2ord 2025 1 31) 0)
   && PyDate.leb (PyDate.mkdt (PyDate.ymd2ord 2025 1 31) 0)
                 (snd (budget_range Scenario.now_0 "monthly" "custom"
                                    (Some "2025-01-01") (Some "2025-01-31"))))%bool
  = true.
Proof.
  apply (custom_window Scenario.now_0
           (PyDate.mkdt (PyDate.ymd2ord 2025 1 31) 0)
           (PyDate.mkdt (PyDate.ymd2ord 2025 1 1) 0)
           (PyDate.mkdt (PyDate.ymd2ord 2025 1 31) 0)
           "monthly" "2025-01-01" "2025-01-31" eq_refl eq_refl eq_refl).
  vm_compute. split; congruence.
Defined.

(** X28.  A "custom" budget one of whose dates is not written yyyy-mm-dd
    (dd-mm-yyyy, say) is silently treated as month-to-date: its window
    runs from the first of the current month to the time of the call,
    its spending is that of a budget of an unknown period type, and
    [_calculate_period_info] describes it as "Current month", reset
    "Next month". *)
Theorem custom_budget_falls_back
        (now : PyDate.datetime) (receipts : list LedgerRow)
        (category period sd ed : string) :
  PyDate.strptime_Ymd sd = None \/ PyDate.strptime_Ymd ed = None ->
  budget_range now period "custom" (Some sd) (Some ed)
  = (PyDate.midnight (PyDate.replace_day1 now), now)
  /\ calculate_budget_spending now receipts category period "custom"
                               (Some sd) (Some ed)
     = calculate_budget_spending now receipts category period "" None None
  /\ _calculate_period_info now "custom" period (Some sd) (Some ed)
     = ("Current month", "Next month").
Proof.
  intros H.
  assert (Hr : budget_range now period "custom" (Some sd) (Some ed)
               = (PyDate.midnight (PyDate.replace_day1 now), now)).
  { unfold budget_range. simpl String.eqb. cbn [opt_str].
    destruct (true && truthy (Some sd) && truthy (Some ed))%bool;
      [|reflexivity].
    destruct H as [-> | H]; [reflexivity|].
    rewrite H. now destruct (PyDate.strptime_Ymd sd). }
  split; [exact Hr|]. split.
  - unfold calculate_budget_spending. rewrite Hr. reflexivity.
  - unfold _calculate_period_info. simpl String.eqb. cbn [opt_str].
    destruct (true && truthy (Some sd) && truthy (Some ed))%bool;
      [|reflexivity].
    destruct H as [-> | H]; [reflexivity|].
    rewrite H. now destruct (PyDate.strptime_Ymd sd).
Qed.

Lemma custom_budget_falls_back_witness :
  _calculate_period_info Scenario.now_0 "custom" "monthly"
                         (Some "01-01-2025") (Some "31-01-2025")
  = ("Current month", "Next month").
Proof.
  apply (custom_budget_falls_back Scenario.now_0 [] "Dining" "monthly"
           "01-01-2025" "31-01-2025").
  left. reflexivity.
Defined.

(** X29.  The window of a "rolling" budget ends at the time of the call
    and starts 7 days (30 when the period is not "weekly") earlier to
    the second: unless the call is made at midnight sharp, the rows
    dated 7 (30) days ago are outside, rows dated after today are
    always outside, and the window covers 7 (30) dates. *)
Theorem rolling_window
        (now d : PyDate.datetime) (period : string)
        (start_date end_date : option string) :
  well_formed now ->
  PyDate.tod_us d = 0%Z ->
  (PyDate.leb (fst (budget_range now period "rolling" start_date end_date)) d
   && PyDate.leb d (snd (budget_range now period "rolling" start_date end_date))
   = true
   <-> (PyDate.ordinal now - (if String.eqb period "weekly" then 7 else 30)
        + (if (0 <? PyDate.tod_us now)%Z then 1 else 0)
        <= PyDate.ordinal d <= PyDate.ordinal now)%Z)%bool.
Proof.
  unfold well_formed, PyDate.day_us. intros Hwf Hd.
  unfold budget_range. simpl String.eqb. cbn [fst snd].
  rewrite andb_true_iff, !WindowFacts.leb_spec.
  set (t := PyDate.tod_us now) in *.
  assert (Hdiv : (t / (86400 * 1000000) = 0)%Z) by (apply Z.div_small; lia).
  assert (Hmod : (t mod (86400 * 1000000) = t)%Z) by (apply Z.mod_small; lia).
  destruct (String.eqb period "weekly");
    unfold PyDate.minus_days, PyDate.add, PyDate.day_us;
    cbn [PyDate.ordinal PyDate.tod_us]; fold t; rewrite Hd;
    replace (t + 0 * 1000000)%Z with t by lia; rewrite Hdiv, Hmod;
    destruct (Z.ltb_spec 0 t); lia.
Qed.

Lemma rolling_window_witness :
  (PyDate.leb (fst (budget_range Scenario.now_0 "weekly" "rolling" None None))
              (PyDate.mkdt (PyDate.ymd2ord 2025 2 3) 0)
   && PyDate.leb (PyDate.mkdt (PyDate.ymd2ord 2025 2 3) 0)
                 (snd (budget_range Scenario.now_0 "weekly" "rolling"
                                    None None)) = true
   <-> (PyDate.ymd2ord 2025 2 10 - 7 + 1 <= PyDate.ymd2ord 2025 2 3
        <= PyDate.ymd2ord 2025 2 10)%Z)%bool.
Proof.
  apply (rolling_window Scenario.now_0
           (PyDate.mkdt (PyDate.ymd2ord 2025 2 3) 0) "weekly" None None).
  - vm_compute. split; congruence.
  - reflexivity.
Defined.

(** ** Order of the returned series *)

Module OrderFacts.

Lemma ascii_compare_trans (a b c : ascii) :
  Ascii.compare a b = Lt -> Ascii.compare b c = Lt -> Ascii.compare a c = Lt.
Proof.
  unfold Ascii.compare. rewrite !N.compare_lt_iff. apply N.lt_trans.
Qed.

Lemma ascii_compare_eq (a b : ascii) : Ascii.compare a b = Eq -> a = b.
Proof.
  unfold Ascii.compare. rewrite N.compare_eq_iff.
  intros H. rewrite <- (ascii_N_embedding a), <- (ascii_N_embedding b).
  now rewrite H.
Qed.

Lemma compare_trans (s1 : string) :
  forall s2 s3,
    String.compare s1 s2 = Lt -> String.compare s2 s3 = Lt ->
    String.compare s1 s3 = Lt.
Proof.
  induction s1 as [|a s1 IH]; intros [|b s2] [|c s3]; simpl;
    try discriminate; try reflexivity.
  destruct (Ascii.compare a b) eqn:Eab; try discriminate.
  - apply ascii_compare_eq in Eab. subst b.
    destruct (Ascii.compare a c); try discriminate; [apply IH | reflexivity].
  - intros _.
    destruct (Ascii.compare b c) eqn:Ebc; try discriminate.
    + apply ascii_compare_eq in Ebc. subst c. now rewrite Eab.
    + intros _. now rewrite (ascii_compare_trans a b c Eab Ebc).
Qed.

Lemma ltb_trans (s1 s2 s3 : string) :
  String.ltb s1 s2 = true -> String.ltb s2 s3 = true ->
  String.ltb s1 s3 = true.
Proof.
  unfold String.ltb.
  destruct (String.compare s1 s2) eqn:E12; try discriminate.
  destruct (String.compare s2 s3) eqn:E23; try discriminate.
  now rewrite (compare_trans s1 s2 s3 E12 E23).
Qed.

Lemma leb_ltb (s1 s2 : string) :
  String.leb s1 s2 = true -> s1 <> s2 -> String.ltb s1 s2 = true.
Proof.
  unfold String.leb, String.ltb.
  destruct (String.compare s1 s2) eqn:E; try discriminate; [|reflexivity].
  apply String.compare_eq_iff in E. contradiction.
Qed.

Lemma not_leb_ltb (s1 s2 : string) :
  String.leb s1 s2 = false -> String.ltb s2 s1 = true.
Proof.
  unfold String.leb, String.ltb. rewrite (String.compare_antisym s1 s2).
  now destruct (String.compare s2 s1).
Qed.

Section Items.
Context {V : Type}.

Lemma insert_by_key_sorted (x : string * V) (l : list (string * V)) :
  ~ In (fst x) (Dict.keys l) ->
  StronglySorted key_lt l -> StronglySorted key_lt (insert_by_key x l).
Proof.
  intros Hnin Hs. induction Hs as [|y t Hs IH Hy]; simpl.
  - repeat constructor.
  - simpl in Hnin.
    destruct (String.leb (fst x) (fst y)) eqn:E.
    + assert (Hxy : key_lt x y).
      { apply leb_ltb; [exact E|]. intros Heq. apply Hnin. now left. }
      constructor; [now constructor|].
      constructor; [exact Hxy|].
      eapply Forall_impl; [|exact Hy].
      intros z Hz. eapply ltb_trans; eauto.
    + constructor.
      * apply IH. intros Hin. apply Hnin. now right.
      * apply Forall_forall. intros z Hz.
        eapply Permutation_in in Hz; [|apply TrendFacts.insert_by_key_perm].
        destruct Hz as [<- | Hz].
        -- now apply not_leb_ltb.
        -- rewrite Forall_forall in Hy. now apply Hy.
Qed.

Lemma sorted_items_sorted (d : list (string * V)) :
  NoDup (Dict.keys d) -> StronglySorted key_lt (sorted_items d).
Proof.
  induction d as [|x d IH]; simpl; intros Hnd; [constructor|].
  inversion Hnd as [|? ? Hnin Hnd']; subst.
  apply insert_by_key_sorted; [|now apply IH].
  intros Hin. apply Hnin.
  unfold Dict.keys in *.
  eapply Permutation_in; [|exact Hin].
  apply Permutation_map, TrendFacts.sorted_items_perm.
Qed.

End Items.

Lemma time_series_increasing (cat : option string) (d : list (string * Q)) :
  NoDup (Dict.keys d) -> increasing (time_series cat d).
Proof.
  intros Hnd. unfold increasing, time_series.
  pose proof (sorted_items_sorted d Hnd) as Hs.
  induction Hs as [|y t Hs IH Hy]; simpl; constructor; [exact IH|].
  apply Forall_forall. intros p Hp. apply in_map_iff in Hp.
  destruct Hp as [z [<- Hz]]. simpl.
  rewrite Forall_forall in Hy. now apply Hy.
Qed.

Lemma time_series_category (cat : option string) (d : list (string * Q)) :
  Forall (fun p => tsp_category p = cat) (time_series cat d).
Proof.
  unfold time_series. apply Forall_forall. intros p Hp.
  apply in_map_iff in Hp. now destruct Hp as [z [<- _]].
Qed.

Lemma time_series_nil (cat : option string) (d : list (string * Q)) :
  time_series cat d = [] -> d = [].
Proof.
  unfold time_series. intros H. apply map_eq_nil in H.
  apply Permutation_nil. rewrite <- H.
  apply TrendFacts.sorted_items_perm.
Qed.

(** No category is listed with an empty series. *)
Lemma series_not_nil (now : PyDate.datetime) (period : string)
      (fs fe : option PyDate.datetime) (receipts : list LedgerRow) :
  forall c s,
    In (c, s) (category_data (trend_acc now period fs fe receipts)) ->
    s <> [].
Proof.
  unfold trend_acc.
  assert (G : forall acc,
             (forall c s, In (c, s) (category_data acc) -> s <> []) ->
             forall c s,
               In (c, s) (category_data
                            (fold_left (trend_step now period fs fe)
                                       receipts acc)) -> s <> []).
  { induction receipts as [|r l IH]; intros acc H; simpl; [exact H|].
    apply IH. unfold trend_step.
    destruct (trend_entry now period fs fe r) as [[[c k] a]|]; [|exact H].
    unfold trend_update. cbn [category_data]. intros c' s' Hin.
    apply (DictFacts.in_set String.eqb String.eqb_eq) in Hin.
    destruct Hin as [[_ ->] | Hin]; [|eapply H; eauto].
    unfold add_to.
    destruct (Dict.get_default String.eqb [] (category_data acc) c);
      simpl; [discriminate|].
    destruct p as [k0 v0]. destruct (String.eqb k0 k); discriminate. }
  apply G. intros c s [].
Qed.

End OrderFacts.

(** X19.  In every [TrendData] that [get_trends] returns, no category is
    listed twice and [data] has exactly the listed categories as keys;
    the series of each category is not empty, carries the category on
    each point and runs in strictly increasing order of the period key,
    so no period appears twice in it; [total_by_period] is in strictly
    increasing order of the period key as well. *)
Theorem get_trends_series_sorted
        (now : PyDate.datetime) (receipts : list LedgerRow) (period : string)
        (date_filter start_date end_date : option string) :
  let t := get_trends now receipts period date_filter start_date end_date in
  NoDup (td_categories t)
  /\ map fst (td_data t) = td_categories t
  /\ Forall (fun cs => snd cs <> []
                       /\ increasing (snd cs)
                       /\ Forall (fun p => tsp_category p = Some (fst cs))
                                 (snd cs))
            (td_data t)
  /\ increasing (td_total_by_period t).
Proof.
  rewrite TrendFacts.get_trends_unfold.
  set (fs := fst _). set (fe := snd _).
  pose proof (TrendFacts.trend_acc_inv now period fs fe receipts) as H.
  pose proof (OrderFacts.series_not_nil now period fs fe receipts) as Hne.
  set (acc := trend_acc now period fs fe receipts) in *.
  cbv zeta. cbn [td_data td_total_by_period td_categories].
  split; [|split; [|split]].
  - rewrite (inv_categories acc H). apply (inv_cat_keys acc H).
  - rewrite map_map. simpl. apply map_id.
  - apply Forall_forall. intros [c series] Hin.
    apply in_map_iff in Hin. destruct Hin as [c' [Heq Hc]].
    injection Heq as -> <-. simpl.
    split; [|split].
    + intros Hnil. apply OrderFacts.time_series_nil in Hnil.
      rewrite (inv_categories acc H) in Hc.
      unfold Dict.keys in Hc. apply in_map_iff in Hc.
      destruct Hc as [[c0 s0] [Hc0 Hin0]]. simpl in Hc0. subst c0.
      unfold Dict.get_default in Hnil.
      destruct (Dict.get String.eqb (category_data acc) c) as [s|] eqn:E.
      * apply (DictFacts.get_In String.eqb String.eqb_eq) in E.
        subst s. now apply (Hne c []).
      * apply (DictFacts.get_None_not_In String.eqb String.eqb_eq) in E.
        apply E. unfold Dict.keys. apply in_map_iff.
        exists (c, s0). now split.
    + apply OrderFacts.time_series_increasing.
      apply (TrendFacts.series_of_inv acc c H).
    + apply OrderFacts.time_series_category.
  - apply OrderFacts.time_series_increasing, (inv_total_keys acc H).
Qed.

(** ** Ranking of the categories *)

Module RankFacts.

Local Open Scope Q_scope.







End RankFacts.


(** ** What the forecast averages *)

Module AverageFacts.

Local Open Scope Q_scope.









End AverageFacts.


(** ** What the duplicate check reports *)

Module ReportFacts.

Local Open Scope Q_scope.

Lemma round_half_even_ge (q : Q) (k : Z) :
  inject_Z k <= q -> (k <= PyNum.round_half_even q)%Z.
Proof.
  intros H. unfold PyNum.round_half_even.
  assert (Hk : (k <= Qfloor q)%Z).
  { rewrite <- (Qfloor_Z k). now apply Qfloor_resp_le. }
  destruct (Qcompare _ _); [destruct (Z.even _)| |]; lia.
Qed.

Lemma round_half_even_le (q : Q) (k : Z) :
  q <= inject_Z k -> (PyNum.round_half_even q <= k)%Z.
Proof.
  intros H. unfold PyNum.round_half_even.
  assert (Hf : (Qfloor q <= k)%Z).
  { rewrite <- (Qfloor_Z k). now apply Qfloor_resp_le. }
  destruct (Z.eq_dec (Qfloor q) k) as [Heq | Hne].
  - assert (Hq : q == inject_Z (Qfloor q)).
    { apply Qle_antisym; [now rewrite Heq | apply Qfloor_le]. }
    assert (Hc : Qcompare (q - inject_Z (Qfloor q)) (1 # 2) = Lt).
    { apply Qlt_alt. rewrite <- Hq. setoid_replace (q - q) with 0 by ring.
      reflexivity. }
    rewrite Hc. lia.
  - destruct (Qcompare _ _); [destruct (Z.even _)| |]; lia.
Qed.

Lemma round_to_1_bounds (q : Q) :
  70 <= q -> q <= 100 -> 70 <= PyNum.round_to 1 q /\ PyNum.round_to 1 q <= 100.
Proof.
  intros Hlo Hhi. unfold PyNum.round_to.
  change (10 ^ Z.of_nat 1)%Z with 10%Z. change (Z.to_pos 10) with 10%positive.
  assert (H1 : (700 <= PyNum.round_half_even (q * inject_Z 10))%Z).
  { apply round_half_even_ge.
    setoid_replace (inject_Z 700) with (70 * inject_Z 10) by reflexivity.
    apply Qmult_le_compat_r; [exact Hlo | discriminate]. }
  assert (H2 : (PyNum.round_half_even (q * inject_Z 10) <= 1000)%Z).
  { apply round_half_even_le.
    setoid_replace (inject_Z 1000) with (100 * inject_Z 10) by reflexivity.
    apply Qmult_le_compat_r; [exact Hhi | discriminate]. }
  split; unfold Qle; cbn [Qnum Qden inject_Z]; lia.
Qed.

Lemma matched_count_le (m : Fuzz.matcher) (expected matched : list NormItem) :
  (matched_count m expected matched <= List.length expected)%nat.
Proof. unfold matched_count. apply filter_length_le. Qed.

Lemma matched_count_nil (m : Fuzz.matcher) (expected : list NormItem) :
  matched_count m expected [] = 0%nat.
Proof.
  unfold matched_count. induction expected as [|e l IH]; simpl; auto.
Qed.

(** What a match of 70 percent or more says about the two lists *)
Lemma is_duplicate_sizes (m : Fuzz.matcher) (expected matched : list NormItem) :
  is_duplicate m expected matched = true ->
  expected <> [] /\ matched <> []
  /\ (7 * List.length matched <= 10 * List.length expected)%nat
  /\ (7 * List.length expected
      <= 10 * matched_count m expected matched)%nat
  /\ 70 <= match_percentage m expected matched
  /\ match_percentage m expected matched <= 100.
Proof.
  unfold is_duplicate, match_percentage, total_items. intros H.
  apply Qle_bool_iff in H.
  pose proof (matched_count_le m expected matched) as Hc.
  set (c := matched_count m expected matched) in *.
  destruct (Nat.max (List.length expected) (List.length matched))
    as [|n] eqn:En.
  { exfalso. revert H. apply Qlt_not_le. reflexivity. }
  set (N := S n) in *.
  assert (HN : 0 < inject_Z (Z.of_nat N)).
  { unfold Qlt. simpl. lia. }
  assert (H7 : (7 * N <= 10 * c)%nat).
  { apply (Qmult_le_compat_r _ _ (inject_Z (Z.of_nat N))) in H;
      [|now apply Qlt_le_weak].
    setoid_replace (inject_Z (Z.of_nat c) / inject_Z (Z.of_nat N) * 100
                    * inject_Z (Z.of_nat N))
      with (inject_Z (Z.of_nat c) * inject_Z 100) in H
      by (field; intros H0; rewrite H0 in HN; now apply Qlt_irrefl in HN).
    change 70 with (inject_Z 70) in H.
    rewrite <- !inject_Z_mult, <- Zle_Qle in H. lia. }
  assert (Hc0 : c <> 0%nat) by lia.
  repeat split.
  - intros ->. simpl in Hc. lia.
  - intros ->. unfold c in Hc0. now rewrite matched_count_nil in Hc0.
  - lia.
  - lia.
  - exact H.
  - setoid_replace (inject_Z (Z.of_nat c) / inject_Z (Z.of_nat N) * 100)
      with (inject_Z (Z.of_nat c) * inject_Z 100 / inject_Z (Z.of_nat N))
      by (field; intros H0; rewrite H0 in HN; now apply Qlt_irrefl in HN).
    apply Qle_shift_div_r; [exact HN|].
    change 100 with (inject_Z 100).
    rewrite <- !inject_Z_mult, <- Zle_Qle.
    assert (c <= N)%nat by lia. lia.
Qed.

(** Every reconstructed group carries the date, the merchant, the
    grand total and the score of one of the rows it was built from,
    and that total is not zero. *)
Lemma groups_from_rows (rows : list DfRow) :
  forall k g,
    In (k, g) (receipt_groups rows) ->
    exists x, In x rows /\ group_header g x.
Proof.
  unfold receipt_groups.
  assert (G : forall acc,
             (forall k g, In (k, g) acc ->
                          exists x, In x rows /\ group_header g x) ->
             forall l,
               (forall x, In x l -> In x rows) ->
               forall k g,
                 In (k, g) (fold_left group_step l acc) ->
                 exists x, In x rows /\ group_header g x).
  { intros acc Hacc l. revert acc Hacc.
    induction l as [|d l IH]; intros acc Hacc Hl k g; simpl; [apply Hacc|].
    apply IH; [|intros x Hx; apply Hl; now right].
    clear k g. intros k g. unfold group_step.
    destruct (is_zero (df_Grand_Total d)) eqn:Ez; [apply Hacc|].
    intros Hin.
    apply (DictFacts.in_set String.eqb String.eqb_eq) in Hin.
    destruct Hin as [[_ ->] | Hin]; [|eapply Hacc; eauto].
    assert (Hbase : exists x,
               In x rows
               /\ group_header
                    match Dict.get String.eqb acc (group_key d) with
                    | Some g0 => g0
                    | None => new_group d
                    end x).
    { destruct (Dict.get String.eqb acc (group_key d)) as [g0|] eqn:Eg.
      - apply (DictFacts.get_In String.eqb String.eqb_eq) in Eg.
        eapply Hacc; eauto.
      - exists d. split; [apply Hl; now left|].
        unfold group_header, new_group. simpl. auto. }
    destruct Hbase as [x [Hx Hh]]. exists x. split; [exact Hx|].
    destruct (_ && _); [|exact Hh].
    unfold group_header, add_item in *. simpl. exact Hh. }
  intros k g. apply (G [] (fun k g H => match H with end) rows).
  auto.
Qed.

End ReportFacts.

(** X22.  Every summary [find_duplicate_receipts] reports comes from
    rows of the ledger that pass its filters: the candidate's date is
    in the format dd-mm-yyyy; some ledger row has the reported date,
    merchant (lower-cased and trimmed) and grand total; the merchant
    score is at least the threshold; the date parses and is within the
    threshold of days of the candidate's; the grand total is not zero
    and is a number within one cent of the candidate's total or no
    number at all; neither the candidate nor the reported receipt is
    without items, the reported receipt has at most 10/7 of the number
    of items of the candidate, and the reported match percentage lies
    between 70 and 100. *)
Theorem reported_duplicate_passes_filters
        (m : Fuzz.matcher) (all_receipts : list LedgerRow) (receipt : Receipt)
        (threshold_days fuzzy_threshold : Z) (d : DuplicateSummary) :
  In d (find_duplicate_receipts m all_receipts receipt threshold_days
                                fuzzy_threshold) ->
  exists (receipt_date x : PyDate.datetime) (r : LedgerRow),
    PyDate.strptime_dmY (purchase_date receipt) = Some receipt_date
    /\ In r all_receipts
    /\ d_Date d = row_Date r
    /\ d_Merchant d = PyStr.strip (PyStr.lower (row_Merchant r))
    /\ d_Grand_Total d = PyNum.to_numeric (row_Grand_Total r)
    /\ d_merchant_score d
       = Fuzz.token_set_ratio
           m (d_Merchant d)
           (PyStr.strip (PyStr.lower (name (merchant_details receipt))))
    /\ (fuzzy_threshold <= d_merchant_score d)%Z
    /\ parse_date (d_Date d) = Some x
    /\ (Z.abs (PyDate.diff_days receipt_date x) <= threshold_days)%Z
    /\ is_zero (d_Grand_Total d) = false
    /\ amount_differs (total (total_amounts receipt)) (d_Grand_Total d) = false
    /\ line_items receipt <> []
    /\ d_items_detail d <> []
    /\ (7 * List.length (d_items_detail d)
        <= 10 * List.length (line_items receipt))%nat
    /\ (70 <= d_match_percentage d)%Q
    /\ (d_match_percentage d <= 100)%Q.
Proof.
  intros Hin. apply DuplicateFacts.reported_from_group in Hin.
  destruct Hin as [rd [[k g] [Hrd [Hg Hcheck]]]]. simpl in Hcheck.
  apply ReportFacts.groups_from_rows in Hg.
  destruct Hg as [x [Hx [Hdate [Hmer [Htot [Hscore Hz]]]]]].
  unfold df_match in Hx. apply filter_In in Hx. destruct Hx as [Hx Hd].
  apply filter_In in Hx. destruct Hx as [Hx Hs].
  apply in_map_iff in Hx. destruct Hx as [r [<- Hr]].
  simpl in *.
  destruct (parse_date (row_Date r)) as [pd|] eqn:Hp; [|discriminate].
  unfold check_group in Hcheck.
  destruct (amount_differs _ (g_Grand_Total g)) eqn:Ha; [discriminate|].
  destruct (is_duplicate m (expected_items receipt) (matched_items g)) eqn:Hi;
    [|discriminate].
  injection Hcheck as <-. simpl.
  apply ReportFacts.is_duplicate_sizes in Hi.
  destruct Hi as [He [Hm [H7 [_ [Hlo Hhi]]]]].
  unfold expected_items, matched_items in He, Hm, H7.
  rewrite !length_map in H7.
  exists rd, pd, r.
  rewrite Hdate, Hmer, Htot, Hscore, Hp.
  repeat split; auto.
  - now apply Z.leb_le.
  - now apply Z.leb_le.
  - now rewrite <- Htot.
  - intros E. apply He. now rewrite E.
  - intros E. apply Hm. now rewrite E.
  - now apply ReportFacts.round_to_1_bounds.
  - now apply ReportFacts.round_to_1_bounds.
Qed.

Lemma reported_duplicate_passes_filters_witness :
  exists (d : DuplicateSummary) (x : PyDate.datetime),
    checkDuplicates Fuzz.Difflib Scenario.ledger_A
                    (Scenario.candidate_A "WALMART") = [d]
    /\ parse_date (d_Date d) = Some x
    /\ (85 <= d_merchant_score d)%Z
    /\ (70 <= d_match_percentage d)%Q.
Proof.
  assert (H : exists d, checkDuplicates Fuzz.Difflib Scenario.ledger_A
                          (Scenario.candidate_A "WALMART") = [d])
    by (eexists; vm_compute; reflexivity).
  destruct H as [d Hd].
  destruct (reported_duplicate_passes_filters Fuzz.Difflib Scenario.ledger_A
              (Scenario.candidate_A "WALMART") 1 85 d)
    as [rd [x [r H]]].
  - unfold checkDuplicates in Hd. rewrite Hd. now left.
  - exists d, x. decompose [and] H. repeat split; assumption.
Defined.

Module IgnoreFacts.

(** [find_duplicate_receipts] without its early returns, which return
    what the loops would have produced. *)
Lemma find_unfold (m : Fuzz.matcher) (all_receipts : list LedgerRow)
      (receipt : Receipt) (threshold_days fuzzy_threshold : Z) :
  find_duplicate_receipts m all_receipts receipt threshold_days fuzzy_threshold
  = match PyDate.strptime_dmY (purchase_date receipt) with
    | None => []
    | Some receipt_date =>
        flat_map (fun kv =>
                    option_list
                      (check_group m (total (total_amounts receipt))
                                   (expected_items receipt) (snd kv)))
                 (receipt_groups
                    (df_match m all_receipts
                       (PyStr.strip
                          (PyStr.lower (name (merchant_details receipt))))
                       receipt_date threshold_days fuzzy_threshold))
    end.
Proof.
  unfold find_duplicate_receipts.
  destruct all_receipts as [|r0 rs].
  - now destruct (PyDate.strptime_dmY (purchase_date receipt)).
  - destruct (PyDate.strptime_dmY (purchase_date receipt)) as [rd|];
      [|reflexivity].
    now destruct (df_match m (r0 :: rs) _ rd threshold_days fuzzy_threshold).
Qed.

Lemma df_match_app (m : Fuzz.matcher) (l1 l2 : list LedgerRow)
      (merchant_name : string) (receipt_date : PyDate.datetime)
      (threshold_days fuzzy_threshold : Z) :
  df_match m (l1 ++ l2) merchant_name receipt_date threshold_days
           fuzzy_threshold
  = (df_match m l1 merchant_name receipt_date threshold_days fuzzy_threshold
     ++ df_match m l2 merchant_name receipt_date threshold_days
                 fuzzy_threshold)%list.
Proof. unfold df_match. now rewrite map_app, !filter_app. Qed.

Lemma groups_skip (a b : list DfRow) (x : DfRow) :
  is_zero (df_Grand_Total x) = true ->
  receipt_groups (a ++ x :: b) = receipt_groups (a ++ b).
Proof.
  intros Hz. unfold receipt_groups. rewrite !fold_left_app. simpl.
  unfold group_step at 2. now rewrite Hz.
Qed.

End IgnoreFacts.

(** X23.  A ledger row whose merchant scores below the threshold, whose
    date does not parse or is further than the threshold of days from
    the candidate's, or whose grand total is zero, has no influence on
    what [find_duplicate_receipts] reports: the result is the same as
    on the ledger without the row. *)
Theorem unrelated_row_is_ignored
        (m : Fuzz.matcher) (l1 l2 : list LedgerRow) (r : LedgerRow)
        (receipt : Receipt) (threshold_days fuzzy_threshold : Z) :
  (Fuzz.token_set_ratio
     m (PyStr.strip (PyStr.lower (row_Merchant r)))
     (PyStr.strip (PyStr.lower (name (merchant_details receipt))))
   < fuzzy_threshold)%Z
  \/ (forall receipt_date x,
         PyDate.strptime_dmY (purchase_date receipt) = Some receipt_date ->
         parse_date (row_Date r) = Some x ->
         (threshold_days < Z.abs (PyDate.diff_days receipt_date x))%Z)
  \/ is_zero (PyNum.to_numeric (row_Grand_Total r)) = true ->
  find_duplicate_receipts m (l1 ++ r :: l2) receipt threshold_days
                          fuzzy_threshold
  = find_duplicate_receipts m (l1 ++ l2) receipt threshold_days
                            fuzzy_threshold.
Proof.
  intros H. rewrite !IgnoreFacts.find_unfold.
  destruct (PyDate.strptime_dmY (purchase_date receipt)) as [rd|] eqn:Hrd;
    [|reflexivity].
  f_equal.
  rewrite !IgnoreFacts.df_match_app.
  change (r :: l2) with ([r] ++ l2)%list. rewrite IgnoreFacts.df_match_app.
  unfold df_match at 2. simpl map. cbn [filter df_merchant_score make_df].
  destruct (fuzzy_threshold <=? _)%Z eqn:Es; [|reflexivity].
  cbn [filter df_row make_df].
  destruct (parse_date (row_Date r)) as [x|] eqn:Hp; [|reflexivity].
  destruct (Z.abs (PyDate.diff_days rd x) <=? threshold_days)%Z eqn:Ed;
    [|reflexivity].
  apply Z.leb_le in Es, Ed.
  destruct H as [H | [H | H]].
  - lia.
  - specialize (H rd x eq_refl eq_refl). lia.
  - simpl app. apply IgnoreFacts.groups_skip. exact H.
Qed.

Lemma unrelated_row_is_ignored_witness :
  checkDuplicates Fuzz.Levenshtein
    (Scenario.ledger_A ++ [Scenario.bad_date_row])
    (Scenario.candidate_A "WALMART")
  = checkDuplicates Fuzz.Levenshtein Scenario.ledger_A
                    (Scenario.candidate_A "WALMART").
Proof.
  unfold checkDuplicates.
  rewrite <- (app_nil_r Scenario.ledger_A) at 2.
  apply (unrelated_row_is_ignored Fuzz.Levenshtein Scenario.ledger_A []
           Scenario.bad_date_row (Scenario.candidate_A "WALMART") 1 85).
  right. left. intros rd x _ Hx. discriminate Hx.
Defined.

(** X24.  A candidate whose purchase date is not written dd-mm-yyyy is
    never flagged, whatever the ledger holds: [find_duplicate_receipts]
    reports nothing for it, and [confirm_receipt] saves it, one row per
    line item, with or without [force_save]. *)
Theorem candidate_in_other_date_format_is_never_flagged
        (m : Fuzz.matcher) (ledger : list LedgerRow) (receipt : Receipt)
        (threshold_days fuzzy_threshold : Z) (force_save : bool) :
  PyDate.strptime_dmY (purchase_date receipt) = None ->
  find_duplicate_receipts m ledger receipt threshold_days fuzzy_threshold = []
  /\ confirm_receipt m ledger receipt force_save
     = ((ledger ++ receipt_rows receipt)%list,
        Saved (List.length (line_items receipt))).
Proof.
  intros H.
  assert (Hf : forall td ft, find_duplicate_receipts m ledger receipt td ft
                             = []).
  { intros td ft. rewrite IgnoreFacts.find_unfold. now rewrite H. }
  split; [apply Hf|].
  unfold confirm_receipt. rewrite Hf. now destruct force_save.
Qed.

Lemma candidate_in_other_date_format_witness :
  confirm_receipt Fuzz.Difflib
    (save_receipt [] Scenario.receipt_iso) Scenario.receipt_iso false
  = ((save_receipt [] Scenario.receipt_iso
      ++ receipt_rows Scenario.receipt_iso)%list,
     Saved 1).
Proof.
  apply (proj2 (candidate_in_other_date_format_is_never_flagged
                  Fuzz.Difflib (save_receipt [] Scenario.receipt_iso)
                  Scenario.receipt_iso 1 85 false eq_refl)).
Defined.

(** ** Saving a receipt and checking it again *)

Module StripFacts.

Import PyStr.

Lemma dropwhile_app (p : ascii -> bool) (a b : list ascii) :
  dropwhile p (a ++ b)
  = if forallb p a then dropwhile p b else (dropwhile p a ++ b)%list.
Proof.
  induction a as [|c a IH]; simpl; [reflexivity|].
  destruct (p c); simpl; [exact IH | reflexivity].
Qed.






Lemma strip_l_space (l : list ascii) :
  strip_l (l ++ [" "%char]) = strip_l l.
Proof.
  unfold strip_l, lstrip_l. rewrite dropwhile_app.
  destruct (forallb is_space l) eqn:E.
  - assert (Hd : dropwhile is_space l = []).
    { clear -E. induction l as [|c l IH]; simpl in *; [reflexivity|].
      apply andb_true_iff in E. destruct E as [-> E]. now apply IH. }
    now rewrite Hd.
  - unfold rstrip_l. rewrite rev_app_distr. reflexivity.
Qed.

Lemma strip_space (s : string) : strip (s ++ " " ++ "") = strip s.
Proof.
  unfold strip. rewrite PyStrFacts.chars_app. simpl chars.
  now rewrite strip_l_space.
Qed.

End StripFacts.

Module RoundTripFacts.

Local Open Scope Q_scope.


Lemma inb_In (x : string) (l : list string) : In x l -> Fuzz.inb x l = true.
Proof.
  intros H. unfold Fuzz.inb. apply existsb_exists.
  exists x. split; [exact H | apply String.eqb_refl].
Qed.

Lemma filter_all {A : Type} (p : A -> bool) (l : list A) :
  (forall x, In x l -> p x = true) -> filter p l = l.
Proof.
  induction l as [|x l IH]; simpl; intros H; [reflexivity|].
  rewrite (H x (or_introl eq_refl)), IH; [reflexivity|].
  intros y Hy. apply H. now right.
Qed.

Lemma filter_none {A : Type} (p : A -> bool) (l : list A) :
  (forall x, In x l -> p x = false) -> filter p l = [].
Proof.
  induction l as [|x l IH]; simpl; intros H; [reflexivity|].
  rewrite (H x (or_introl eq_refl)), IH; [reflexivity|].
  intros y Hy. apply H. now right.
Qed.

Lemma ratio_same (m : Fuzz.matcher) (s : string) : Fuzz.ratio m s s = 100%Z.
Proof. unfold Fuzz.ratio. now rewrite String.eqb_refl. Qed.

(** A name with a letter or a digit in it scores 100 against itself. *)
Lemma token_set_ratio_same (m : Fuzz.matcher) (s : string) :
  PyStr.is_empty (Fuzz.full_process s) = false ->
  Fuzz.token_set_ratio m s s = 100%Z.
Proof.
  intros H. unfold Fuzz.token_set_ratio. rewrite H.
  set (tokens := Fuzz.split (Fuzz.full_process s)).
  rewrite (filter_all (fun t => Fuzz.inb t tokens) tokens)
    by (intros x Hx; now apply inb_In).
  rewrite (filter_none (fun t => negb (Fuzz.inb t tokens)) tokens)
    by (intros x Hx; now rewrite inb_In).
  cbn [Fuzz.sorted_set fold_right Fuzz.join].
  rewrite StripFacts.strip_space, !ratio_same. reflexivity.
Qed.

Lemma diff_days_same (d : PyDate.datetime) : PyDate.diff_days d d = 0%Z.
Proof.
  unfold PyDate.diff_days. rewrite !Z.sub_diag. reflexivity.
Qed.

Lemma fold_add_item (l : list GroupItem) :
  forall g,
    fold_left add_item l g
    = mkGroup (g_Date g) (g_Merchant g) (g_Address g) (g_Grand_Total g)
              (g_Tax g) (g_Payment g) (g_items g ++ l) (g_merchant_score g).
Proof.
  induction l as [|x l IH]; intros g; simpl.
  - rewrite app_nil_r. now destruct g.
  - rewrite IH. simpl. now rewrite <- app_assoc.
Qed.


Section Saved.
Variable m : Fuzz.matcher.
Variable receipt : Receipt.
Variable receipt_date : PyDate.datetime.
Hypothesis Hdate :
  PyDate.strptime_dmY (purchase_date receipt) = Some receipt_date.
Hypothesis Htotal : Qeq_bool (total (total_amounts receipt)) 0 = false.
Hypothesis Hmerchant :
  PyStr.is_empty
    (Fuzz.full_process
       (PyStr.strip (PyStr.lower (name (merchant_details receipt)))))
  = false.

(** The frame row of the row saved for an item *)
Lemma saved_row_score (item : LineItem) :
  df_merchant_score
    (make_df m (PyStr.strip (PyStr.lower (name (merchant_details receipt))))
             (saved_row_of receipt item))
  = 100%Z.
Proof. cbn. now apply token_set_ratio_same. Qed.

(** Every saved row passes the merchant and the date filter. *)
Lemma saved_rows_pass (its : list LineItem) :
  df_match m (map (saved_row_of receipt) its)
           (PyStr.strip (PyStr.lower (name (merchant_details receipt))))
           receipt_date 1 85
  = map (make_df m (PyStr.strip
                      (PyStr.lower (name (merchant_details receipt)))))
        (map (saved_row_of receipt) its).
Proof.
  unfold df_match. rewrite !filter_all; [reflexivity | |].
  - intros d Hd. apply in_map_iff in Hd. destruct Hd as [r [<- Hr]].
    apply in_map_iff in Hr. destruct Hr as [it [<- _]].
    now rewrite saved_row_score.
  - intros d Hd. apply filter_In in Hd. destruct Hd as [Hd _].
    apply in_map_iff in Hd. destruct Hd as [r [<- Hr]].
    apply in_map_iff in Hr. destruct Hr as [it [<- _]]. cbn.
    unfold parse_date. rewrite Hdate, diff_days_same. reflexivity.
Qed.

(** One iteration of the grouping loop on a saved row *)
Lemma group_step_saved (g0 : option ReceiptGroup) (item : LineItem) :
  item_kept (item_name item) = true ->
  let x := make_df m (PyStr.strip
                        (PyStr.lower (name (merchant_details receipt))))
                   (saved_row_of receipt item) in
  group_step match g0 with
             | Some g => [(saved_key receipt, g)]
             | None => []
             end x
  = [(saved_key receipt,
      add_item match g0 with Some g => g | None => new_group x end
               (saved_item item))].
Proof.
  intros Hk x. unfold group_step.
  change (df_Grand_Total x) with (Some (total (total_amounts receipt))).
  cbn [is_zero]. rewrite Htotal.
  change (group_key x) with (saved_key receipt).
  change (row_Item (df_row x)) with (item_name item).
  unfold item_kept in Hk. rewrite Hk.
  destruct g0 as [g|]; simpl; [rewrite String.eqb_refl|]; reflexivity.
Qed.

Lemma groups_saved (its : list LineItem) :
  Forall (fun item => item_kept (item_name item) = true) its ->
  forall g,
    fold_left group_step
      (map (make_df m (PyStr.strip
                         (PyStr.lower (name (merchant_details receipt)))))
           (map (saved_row_of receipt) its))
      [(saved_key receipt, g)]
    = [(saved_key receipt, fold_left add_item (map saved_item its) g)].
Proof.
  induction 1 as [|item its Hk _ IH]; intros g; simpl; [reflexivity|].
  rewrite (group_step_saved (Some g) item Hk). apply IH.
Qed.


(** The group the saved rows are filed under *)
Lemma saved_groups (item : LineItem) (its : list LineItem) :
  Forall (fun item => item_kept (item_name item) = true) (item :: its) ->
  exists g,
    receipt_groups
      (map (make_df m (PyStr.strip
                         (PyStr.lower (name (merchant_details receipt)))))
           (map (saved_row_of receipt) (item :: its)))
    = [(saved_key receipt, g)]
    /\ g_Date g = purchase_date receipt
    /\ g_Grand_Total g = Some (total (total_amounts receipt))
    /\ g_merchant_score g = 100%Z
    /\ g_items g = map saved_item (item :: its).
Proof.
  intros HF. inversion HF as [|? ? Hk HF']; subst.
  unfold receipt_groups. cbn [map fold_left].
  rewrite (group_step_saved None item Hk). cbv zeta.
  rewrite (groups_saved its HF'), fold_add_item.
  eexists. split; [reflexivity|]. cbn [g_Date g_Grand_Total g_merchant_score
                                        g_items add_item new_group].
  repeat split.
  apply saved_row_score.
Qed.

Lemma amount_same (t : Q) : amount_differs t (Some t) = false.
Proof.
  unfold amount_differs, PyNum.Qltb, PyNum.Qabs'.
  assert (H0 : Qle_bool 0 (t - t) = true)
    by (apply Qle_bool_iff; ring_simplify; apply Qle_refl).
  rewrite H0.
  assert (H1 : Qle_bool (t - t) (1 # 100) = true)
    by (apply Qle_bool_iff; ring_simplify; discriminate).
  now rewrite H1.
Qed.


End Saved.

End RoundTripFacts.



(** X26.  A receipt that sits in the ledger twice is no longer flagged.
    For a receipt dated dd-mm-yyyy, with a total that is not zero, at
    least one line item, item names that are not blank and not "TOTAL"
    and a merchant name with a letter or a digit in it (names and
    categories being read back as text), and a ledger none of whose
    rows passes the merchant and date filter for it: once the receipt
    has been saved a second time (with [force_save]), the two copies are
    filed as one stored receipt with twice the items, the match drops
    to 50 percent, [find_duplicate_receipts] reports nothing for the
    receipt, and [confirm_receipt] without [force_save] saves it once
    more. *)
Theorem twice_saved_receipt_is_not_flagged
        (m : Fuzz.matcher) (ledger : list LedgerRow) (receipt : Receipt)
        (receipt_date : PyDate.datetime) :
  PyDate.strptime_dmY (purchase_date receipt) = Some receipt_date ->
  Qeq_bool (total (total_amounts receipt)) 0 = false ->
  line_items receipt <> [] ->
  Forall (fun item => item_kept (item_name item) = true
                      /\ text_item item = true)
         (line_items receipt) ->
  PyStr.is_empty
    (Fuzz.full_process
       (PyStr.strip (PyStr.lower (name (merchant_details receipt)))))
  = false ->
  stays_text (name (merchant_details receipt)) = true ->
  df_match m ledger
           (PyStr.strip (PyStr.lower (name (merchant_details receipt))))
           receipt_date 1 85 = [] ->
  let twice := save_receipt (save_receipt ledger receipt) receipt in
  find_duplicate_receipts m twice receipt 1 85 = []
  /\ confirm_receipt m twice receipt false
     = (save_receipt twice receipt, Saved (List.length (line_items receipt))).
Proof.
  intros Hdate Htotal Hne Hitems Hmerchant _ Hledger twice.
  assert (Hkept : Forall (fun item => item_kept (item_name item) = true)
                         (line_items receipt)).
  { eapply Forall_impl; [|exact Hitems]. now intros item [H _]. }
  assert (Hfind : find_duplicate_receipts m twice receipt 1 85 = []).
  { unfold twice, save_receipt.
    rewrite IgnoreFacts.find_unfold, Hdate.
    rewrite !IgnoreFacts.df_match_app, Hledger. cbn [app].
    rewrite <- IgnoreFacts.df_match_app. unfold receipt_rows.
    rewrite <- map_app.
    rewrite (RoundTripFacts.saved_rows_pass m receipt receipt_date Hdate
               Hmerchant).
    assert (Hk2 : Forall (fun item => item_kept (item_name item) = true)
                         (line_items receipt ++ line_items receipt))
      by (apply Forall_app; now split).
    destruct (line_items receipt) as [|item its] eqn:Hits; [congruence|].
    cbn [app] in *.
    destruct (RoundTripFacts.saved_groups m receipt Htotal Hmerchant item
                (its ++ item :: its) Hk2) as [g [-> [_ [Ht [_ Hi]]]]].
    cbn [flat_map snd app]. unfold check_group.
    rewrite Ht, RoundTripFacts.amount_same.
    destruct (is_duplicate m (expected_items receipt) (matched_items g))
      eqn:Hdup; [|reflexivity].
    exfalso. apply ReportFacts.is_duplicate_sizes in Hdup.
    destruct Hdup as [_ [_ [H7 _]]].
    unfold expected_items, matched_items in H7.
    rewrite !length_map, Hi, Hits in H7. cbn [map List.length] in H7.
    rewrite length_map, length_app in H7. cbn [List.length] in H7. lia. }
  split; [exact Hfind|].
  unfold confirm_receipt. now rewrite Hfind.
Qed.

Lemma twice_saved_receipt_is_not_flagged_witness :
  find_duplicate_receipts Fuzz.Levenshtein
    (save_receipt (save_receipt Scenario.ledger_dining
                                (Scenario.candidate_A "Walmart"))
                  (Scenario.candidate_A "Walmart"))
    (Scenario.candidate_A "Walmart") 1 85
  = [].
Proof.
  apply (twice_saved_receipt_is_not_flagged Fuzz.Levenshtein
           Scenario.ledger_dining (Scenario.candidate_A "Walmart")
           (PyDate.mkdt (PyDate.ymd2ord 2025 1 1) 0));
    try (vm_compute; reflexivity).
  - discriminate.
  - repeat constructor.
Defined.
